(** * slumber: resource-address resolution and request/response translation

    A shallow embedding of [slumber/__init__.py] (Python 2): the URL joining
    helper, the Meta configuration merge of [MetaMixin], attribute and call
    navigation on [Resource], the verb methods and the [API] constructor,
    followed by the properties proved about them. *)

From Stdlib Require Import ZArith String Ascii List Bool Lia.
From stdpp Require Import base option list gmap strings pretty.

Local Open Scope string_scope.
Local Open Scope list_scope.

(** ** Python byte strings *)

Module PyStr.

(** [s.find(c)] for a one-character needle. *)
Fixpoint find (c : ascii) (s : string) : option nat :=
  match s with
  | EmptyString => None
  | String a s' => if Ascii.eqb a c then Some 0 else S <$> find c s'
  end.

(** [c in s] *)
Definition contains (c : ascii) (s : string) : bool :=
  match find c s with Some _ => true | None => false end.

(** [s[:n]] *)
Fixpoint take (n : nat) (s : string) : string :=
  match n, s with
  | S n', String a s' => String a (take n' s')
  | _, _ => EmptyString
  end.

(** [s[n:]] *)
Fixpoint drop (n : nat) (s : string) : string :=
  match n, s with
  | S n', String _ s' => drop n' s'
  | _, _ => s
  end.

(** [s.find(c, start)] *)
Definition find_from (c : ascii) (start : nat) (s : string) : option nat :=
  (λ i, start + i) <$> find c (drop start s).

(** [s.startswith(p)] *)
Definition startswith (p s : string) : bool := String.prefix p s.

(** [s.endswith(c)] for a one-character suffix. *)
Fixpoint endswith (c : ascii) (s : string) : bool :=
  match s with
  | EmptyString => false
  | String a EmptyString => Ascii.eqb a c
  | String _ s' => endswith c s'
  end.

(** [s.split(c, 1)], used only under the guard [c in s]. *)
Definition split1 (c : ascii) (s : string) : string * string :=
  match find c s with
  | Some i => (take i s, drop (S i) s)
  | None => (s, EmptyString)
  end.

Fixpoint forallb (P : ascii → bool) (s : string) : bool :=
  match s with
  | EmptyString => true
  | String a s' => P a && forallb P s'
  end.

Definition is_upper (a : ascii) : bool :=
  let n := nat_of_ascii a in (65 <=? n)%nat && (n <=? 90)%nat.
Definition is_lower (a : ascii) : bool :=
  let n := nat_of_ascii a in (97 <=? n)%nat && (n <=? 122)%nat.
Definition is_digit (a : ascii) : bool :=
  let n := nat_of_ascii a in (48 <=? n)%nat && (n <=? 57)%nat.

Definition lower_char (a : ascii) : ascii :=
  if is_upper a then ascii_of_nat (nat_of_ascii a + 32) else a.

(** [s.lower()] *)
Fixpoint lower (s : string) : string :=
  match s with
  | EmptyString => EmptyString
  | String a s' => String (lower_char a) (lower s')
  end.

(** [sep.join(l)] *)
Fixpoint join (sep : string) (l : list string) : string :=
  match l with
  | [] => EmptyString
  | [x] => x
  | x :: l' => x +:+ sep +:+ join sep l'
  end.

(** [s.replace(a, b)] for one-character [a] and [b]. *)
Fixpoint replace (a b : ascii) (s : string) : string :=
  match s with
  | EmptyString => EmptyString
  | String c s' => String (if Ascii.eqb c a then b else c) (replace a b s')
  end.

End PyStr.

(** ** posixpath *)

Module posixpath.

(** One iteration of the loop of [posixpath.join]. *)
Definition join_step (path b : string) : string :=
  if PyStr.startswith "/" b then b
  else if String.eqb path "" || PyStr.endswith "/" path then path +:+ b
  else path +:+ "/" +:+ b.

(** [posixpath.join(a, *p)] *)
Definition join (a : string) (p : list string) : string :=
  fold_left join_step p a.

End posixpath.

(** ** urlparse (Python 2.7) *)

Module urlparse.

Record SplitResult := mkSplit {
  scheme : string;
  netloc : string;
  path : string;
  query : string;
  fragment : string
}.

Definition uses_netloc : list string :=
  ["ftp"; "http"; "gopher"; "nntp"; "telnet"; "imap"; "wais"; "file";
   "mms"; "https"; "shttp"; "snews"; "prospero"; "rtsp"; "rtspu"; "rsync";
   ""; "svn"; "svn+ssh"; "sftp"; "nfs"; "git"; "git+ssh"].

(** letters, digits and ["+-."] *)
Definition scheme_char (a : ascii) : bool :=
  PyStr.is_lower a || PyStr.is_upper a || PyStr.is_digit a
  || Ascii.eqb a "+" || Ascii.eqb a "-" || Ascii.eqb a ".".

(** [_splitnetloc(url, start)]: the earliest of the delimiters ["/?#"]
    at or after [start] ends the network location. *)
Definition _splitnetloc (url : string) (start : nat) : string * string :=
  let delim :=
    fold_left
      (λ delim c,
         match PyStr.find_from c start url with
         | Some wdelim => Nat.min delim wdelim
         | None => delim
         end)
      ["/"; "?"; "#"]%char (String.length url) in
  (PyStr.drop start (PyStr.take delim url), PyStr.drop delim url).

(** The tail shared by both branches of [urlsplit]: network location,
    fragment, query.  [None] stands for [ValueError("Invalid IPv6 URL")]. *)
Definition split_rest (scheme url : string) : option SplitResult :=
  let '(netloc, url, ok) :=
    if PyStr.startswith "//" url then
      let '(netloc, url) := _splitnetloc url 2 in
      (netloc, url,
       negb ((PyStr.contains "[" netloc && negb (PyStr.contains "]" netloc))
             || (PyStr.contains "]" netloc && negb (PyStr.contains "[" netloc))))
    else (EmptyString, url, true) in
  if negb ok then None else
  let '(url, fragment) :=
    if PyStr.contains "#" url then PyStr.split1 "#" url else (url, EmptyString) in
  let '(url, query) :=
    if PyStr.contains "?" url then PyStr.split1 "?" url else (url, EmptyString) in
  Some (mkSplit scheme netloc url query fragment).

(** [urlsplit(url)] with the default [scheme=''] and [allow_fragments=True]. *)
Definition urlsplit (url : string) : option SplitResult :=
  match PyStr.find ":" url with
  | Some (S i') =>
      let i := S i' in
      if String.eqb (PyStr.take i url) "http" then
        split_rest (PyStr.lower (PyStr.take i url)) (PyStr.drop (S i) url)
      else if PyStr.forallb scheme_char (PyStr.take i url) then
        let rest := PyStr.drop (S i) url in
        if String.eqb rest "" || negb (PyStr.forallb PyStr.is_digit rest) then
          split_rest (PyStr.lower (PyStr.take i url)) rest
        else split_rest "" url
      else split_rest "" url
  | _ => split_rest "" url
  end.

(** [urlunsplit(data)] *)
Definition urlunsplit (data : SplitResult) : string :=
  let url := path data in
  let url :=
    if negb (String.eqb (netloc data) "")
       || (negb (String.eqb (scheme data) "")
           && bool_decide (scheme data ∈ uses_netloc)
           && negb (String.eqb (PyStr.take 2 url) "//"))
    then
      let url :=
        if negb (String.eqb url "") && negb (String.eqb (PyStr.take 1 url) "/")
        then "/" +:+ url else url in
      "//" +:+ netloc data +:+ url
    else url in
  let url :=
    if negb (String.eqb (scheme data) "") then scheme data +:+ ":" +:+ url
    else url in
  let url :=
    if negb (String.eqb (query data) "") then url +:+ "?" +:+ query data
    else url in
  if negb (String.eqb (fragment data) "") then url +:+ "#" +:+ fragment data
  else url.

(** The path as [urlunsplit] writes it behind a network location. *)
Definition rooted (path : string) : string :=
  if negb (String.eqb path "") && negb (String.eqb (PyStr.take 1 path) "/")
  then "/" +:+ path else path.

(** The parts of an absolute URL as [urlsplit] returns them: a lower-case
    scheme, a network location free of delimiters, a path free of ["?"] and
    ["#"] and a query free of ["#"]. *)
Record wf_split (r : SplitResult) : Prop := mkWfSplit {
  wf_scheme_ne : scheme r ≠ "";
  wf_scheme_chars : PyStr.forallb scheme_char (scheme r) = true;
  wf_scheme_lower : PyStr.lower (scheme r) = scheme r;
  wf_netloc_ne : netloc r ≠ "";
  wf_netloc_slash : PyStr.contains "/" (netloc r) = false;
  wf_netloc_query : PyStr.contains "?" (netloc r) = false;
  wf_netloc_hash : PyStr.contains "#" (netloc r) = false;
  wf_netloc_brackets : PyStr.contains "[" (netloc r) = PyStr.contains "]" (netloc r);
  wf_path_query : PyStr.contains "?" (path r) = false;
  wf_path_hash : PyStr.contains "#" (path r) = false;
  wf_query_hash : PyStr.contains "#" (query r) = false
}.

End urlparse.

(** ** Python values *)

(** The values that flow through the client: [None], byte strings, integers,
    booleans and string-to-string dictionaries (credential bundles), the
    latter in item order. *)
Inductive pyval :=
| PNone
| PStr (s : string)
| PInt (z : Z)
| PBool (b : bool)
| PDict (d : list (string * string)).

Global Instance pyval_eq_dec : EqDecision pyval.
Proof. solve_decision. Defined.

Module PyRepr.

Definition hex_digit (upper : bool) (n : nat) : ascii :=
  if (n <? 10)%nat then ascii_of_nat (48 + n)
  else ascii_of_nat ((if upper then 55 else 87) + n).

(** ['%02X' % n] and ['%02x' % n] for a byte. *)
Definition hex2 (upper : bool) (n : nat) : string :=
  String (hex_digit upper (n / 16)) (String (hex_digit upper (n mod 16)) "").

Definition escape_char (quote a : ascii) : string :=
  let n := nat_of_ascii a in
  if Ascii.eqb a quote || Ascii.eqb a "\" then String "\" (String a "")
  else if (n =? 9)%nat then "\t"
  else if (n =? 10)%nat then "\n"
  else if (n =? 13)%nat then "\r"
  else if (n <? 32)%nat || (127 <=? n)%nat then "\x" +:+ hex2 false n
  else String a "".

Fixpoint escape (quote : ascii) (s : string) : string :=
  match s with
  | EmptyString => EmptyString
  | String a s' => escape_char quote a +:+ escape quote s'
  end.

(** The double-quote character. *)
Definition dquote : ascii := ascii_of_nat 34.

(** [repr(s)] of a byte string. *)
Definition repr_str (s : string) : string :=
  let quote : ascii :=
    if PyStr.contains "'" s && negb (PyStr.contains dquote s)
    then dquote else "'"%char in
  String quote (escape quote s) +:+ String quote "".

Definition repr_dict (d : list (string * string)) : string :=
  "{" +:+ PyStr.join ", " ((λ kv, repr_str kv.1 +:+ ": " +:+ repr_str kv.2) <$> d)
      +:+ "}".

End PyRepr.

(** [str(v)] *)
Definition py_str (v : pyval) : string :=
  match v with
  | PNone => "None"
  | PStr s => s
  | PInt z => pretty z
  | PBool true => "True"
  | PBool false => "False"
  | PDict d => PyRepr.repr_dict d
  end.

(** ** urllib (Python 2.7) *)

Module urllib.

(** letters, digits and ["_.-"] *)
Definition always_safe (a : ascii) : bool :=
  PyStr.is_upper a || PyStr.is_lower a || PyStr.is_digit a
  || Ascii.eqb a "_" || Ascii.eqb a "." || Ascii.eqb a "-".

Definition quote_char (safe : string) (a : ascii) : string :=
  if always_safe a || PyStr.contains a safe then String a ""
  else "%" +:+ PyRepr.hex2 true (nat_of_ascii a).

(** [quote(s, safe)] *)
Fixpoint quote (s safe : string) : string :=
  match s with
  | EmptyString => EmptyString
  | String a s' => quote_char safe a +:+ quote s' safe
  end.

(** [quote_plus(s)] with the default [safe='']. *)
Definition quote_plus (s : string) : string :=
  if PyStr.contains " " s then PyStr.replace " " "+" (quote s " ")
  else quote s "".

(** [urlencode(query)] on the items of a dictionary, [doseq] off. *)
Definition urlencode (items : list (string * pyval)) : string :=
  PyStr.join "&"
    ((λ kv, quote_plus kv.1 +:+ "=" +:+ quote_plus (py_str kv.2)) <$> items).

End urllib.



(** ** A query string as its recipient reads it *)

(** What URL-encoded means for the query of a request: the string is made of
    unreserved characters, escapes and separators only, and splitting it at
    the separators and undoing the escapes gives the pairs back. *)
Module query_string.




(** The pieces of [s] between the occurrences of [c]. *)
Fixpoint split (c : ascii) (s : string) : list string :=
  match s with
  | EmptyString => [EmptyString]
  | String a s' =>
      if Ascii.eqb a c then EmptyString :: split c s'
      else match split c s' with
           | x :: l => String a x :: l
           | [] => [String a EmptyString]
           end
  end.



End query_string.

(** ** Responses, requests and exceptions *)

(** What the transport returns beside the content: the integer status and the
    headers ([resp["location"]] reads one of them). *)
Record Response := mkResponse {
  status : Z;
  resp_headers : gmap string string
}.

Record Request := mkRequest {
  req_url : pyval;
  req_method : string;
  req_body : pyval;
  req_headers : list (string * string)
}.

Inductive exn :=
| AttributeError (msg : string)
| TypeError (msg : string)
| KeyError (key : string)
| ValueError (msg : string)
| ImproperlyConfigured (msg : string)
| HttpClientError (msg : string) (response : Response) (content : string)
| HttpServerError (msg : string) (response : Response) (content : string)
| CollaboratorError (msg : string).

Inductive outcome (A : Type) :=
| Ok (a : A)
| Raise (e : exn).
Arguments Ok {A} a.
Arguments Raise {A} e.

(** ** url_join *)

(** [url_join(base, *args)].  [urlsplit] of something that is not a string
    fails on [url.find] (on the cache key for an unhashable dictionary). *)
Definition url_join (base : pyval) (args : list pyval) : outcome string :=
  match base with
  | PStr base =>
      match urlparse.urlsplit base with
      | Some r =>
          let path := posixpath.join (urlparse.path r) (py_str <$> args) in
          Ok (urlparse.urlunsplit
                (urlparse.mkSplit (urlparse.scheme r) (urlparse.netloc r) path
                   (urlparse.query r) (urlparse.fragment r)))
      | None => Raise (ValueError "Invalid IPv6 URL")
      end
  | PNone => Raise (AttributeError "'NoneType' object has no attribute 'find'")
  | PInt _ => Raise (AttributeError "'int' object has no attribute 'find'")
  | PBool _ => Raise (AttributeError "'bool' object has no attribute 'find'")
  | PDict _ => Raise (TypeError "unhashable type: 'dict'")
  end.

(** ** Meta and MetaMixin *)

(** The [__dict__] of a [Meta] object or of a declared [class Meta]. *)
Abbreviation Meta := (gmap string pyval).

(** [dict([x for x in d.items() if not x[0].startswith("_")])] *)
Definition public_items (d : Meta) : Meta :=
  filter (λ x : string * pyval, PyStr.startswith "_" x.1 = false) d.

Inductive base_class := ResourceClass | APIClass.

(** [Resource.Meta.__dict__] and [API.Meta.__dict__]: the three declared
    settings and the two entries every old-style class body gets. *)
Definition base_Meta (b : base_class) : Meta :=
  {[ "authentication" := PNone; "base_url" := PNone; "format" := PStr "json";
     "__module__" := PStr "slumber"; "__doc__" := PNone ]}.

(** A node class: [Resource] or [API], or a subclass of one that only
    declares settings.  [cls_subs] lists, most derived first, the [Meta] that
    attribute lookup finds on each class placed before the base in the MRO. *)
Record pyclass := mkClass {
  cls_base : base_class;
  cls_subs : list Meta
}.

(** [x.Meta] for each [x] of [cls.mro()], [None] where [hasattr(x, "Meta")]
    is false: the subclasses, the base, then [ResourceAttributesMixin],
    [MetaMixin] and [object]. *)
Definition class_mro (cls : pyclass) : list (option Meta) :=
  (Some <$> cls_subs cls) ++ [Some (base_Meta (cls_base cls)); None; None; None].

(** [reversed([x.Meta for x in self.__class__.mro() if hasattr(x, "Meta")])] *)
Definition metas_of (cls : pyclass) : list Meta :=
  reverse (omap id (class_mro cls)).

(** The loop [for meta in metas: final_meta.update(...)]. *)
Definition merge_metas (metas : list Meta) : Meta :=
  fold_left (λ final_meta meta, public_items meta ∪ final_meta) metas ∅.

(** One iteration of [for key in final_meta.keys(): if key in kwargs: ...]. *)
Definition take_kwarg (st : Meta * Meta) (key : string) : Meta * Meta :=
  let '(final_meta, kwargs) := st in
  match kwargs !! key with
  | Some v => (<[key := v]> final_meta, delete key kwargs)
  | None => (final_meta, kwargs)
  end.

Definition apply_kwargs (final_meta kwargs : Meta) : Meta * Meta :=
  fold_left take_kwarg (map_to_list final_meta).*1 (final_meta, kwargs).

(** ** The world: allocated nodes and the requests sent so far *)

(** Modelled from the spec: [slumber.http.HttpClient], whose
    [add_credentials] takes the credential fields as keywords and configures authentication before first use. *)
Record HttpClient := mkClient {
  credentials : list (list (string * string))
}.

Record ResourceObj := mkResource {
  res_class : pyclass;
  res_meta : Meta;
  res_http_client : HttpClient
}.

Record APIObj := mkAPI {
  api_class : pyclass;
  api_meta : Meta;
  api_http_client : HttpClient
}.

Record world := mkWorld {
  heap : list ResourceObj;
  trace : list Request
}.

(** Computations: state passing with exceptions; the state an exception
    leaves behind is kept. *)
Definition M (A : Type) : Type := world → outcome A * world.

Definition ret {A} (a : A) : M A := λ w, (Ok a, w).
Definition raise {A} (e : exn) : M A := λ w, (Raise e, w).
Definition bind {A B} (m : M A) (k : A → M B) : M B :=
  λ w, match m w with
       | (Ok a, w') => k a w'
       | (Raise e, w') => (Raise e, w')
       end.
Definition lift {A} (o : outcome A) : M A := λ w, (o, w).

Notation "x <- m ;; k" := (bind m (λ x, k))
  (at level 100, m at next level, right associativity).

(** A new object: its address is the next free index of the heap. *)
Definition alloc (o : ResourceObj) : M nat :=
  λ w, (Ok (length (heap w)), mkWorld (heap w ++ [o]) (trace w)).

Definition deref (self : nat) : M ResourceObj :=
  λ w, match heap w !! self with
       | Some o => (Ok o, w)
       | None => (Raise (CollaboratorError "dangling reference"), w)
       end.

(** [meta.<name>] *)
Definition meta_attr (meta : Meta) (name : string) : M pyval :=
  match meta !! name with
  | Some v => ret v
  | None => raise (AttributeError ("Meta instance has no attribute '" +:+ name +:+ "'"))
  end.

(** [object.__init__] given [args] and [kwargs] (Python 2.6 and later), for
    a class that overrides [__init__] only. *)
Definition object_init (args : list pyval) (kwargs : Meta) : M unit :=
  if bool_decide (args = [] ∧ kwargs = ∅) then ret tt
  else raise (TypeError "object.__init__() takes no parameters").

(** [MetaMixin.__init__]; [super_init] is the [__init__] next in the MRO and
    the result is [self._meta.__dict__]. *)
Definition MetaMixin_init (super_init : list pyval → Meta → M unit)
    (cls : pyclass) (args : list pyval) (kwargs : Meta) : M Meta :=
  let metas := metas_of cls in
  let final_meta := merge_metas metas in
  let '(final_meta, kwargs) := apply_kwargs final_meta kwargs in
  _ <- super_init args kwargs;;
  ret final_meta.

(** [client.add_credentials] with [authentication] unpacked as keywords. *)
Definition add_credentials (client : HttpClient) (authentication : pyval) : M HttpClient :=
  match authentication with
  | PDict fields => ret (mkClient (credentials client ++ [fields]))
  | _ => raise (TypeError "add_credentials() argument after ** must be a mapping")
  end.

(** The part shared by the two constructors: a fresh client, given the
    credentials when there are some. *)
Definition make_client (meta : Meta) : M HttpClient :=
  authentication <- meta_attr meta "authentication";;
  if bool_decide (authentication ≠ PNone)
  then add_credentials (mkClient []) authentication
  else ret (mkClient []).

(** [Resource.__init__], together with the allocation of the instance. *)
Definition Resource_init (cls : pyclass) (args : list pyval) (kwargs : Meta) : M nat :=
  meta <- MetaMixin_init object_init cls args kwargs;;
  client <- make_client meta;;
  alloc (mkResource cls meta client).

(** A node as the constructor leaves it: one value for every declared
    setting and no other, and credentials that are [None] or a dictionary. *)
Definition wf_node (o : ResourceObj) : Prop :=
  dom (res_meta o) = dom (merge_metas (metas_of (res_class o)))
  ∧ (res_meta o !! "authentication" = Some PNone
     ∨ ∃ fields, res_meta o !! "authentication" = Some (PDict fields)).

Definition Resource_class : pyclass := mkClass ResourceClass [].
Definition API_class : pyclass := mkClass APIClass [].

(** [ResourceAttributesMixin.__getattr__], on the [_meta] of the node. *)
Definition ResourceAttributesMixin_getattr (meta : Meta) (item : string) : M nat :=
  if PyStr.startswith "_" item then raise (AttributeError item) else
  base <- meta_attr meta "base_url";;
  url <- lift (url_join base [PStr item]);;
  format <- meta_attr meta "format";;
  authentication <- meta_attr meta "authentication";;
  Resource_init Resource_class []
    {[ "base_url" := PStr url; "format" := format;
       "authentication" := authentication ]}.

(** What [obj.item] evaluates to: the node that the hook [__getattr__] builds,
    or whatever normal lookup finds under the name (a bound method, the
    nested class, an instance attribute, an attribute of [object]). *)
Inductive attribute :=
| Node (a : nat)
| Member (name : string).

(** The attributes of every instance of a class made by a [class]
    statement over [object] (Python 2.7): the fifteen of [object], and
    [__dict__], [__weakref__] and [__module__] that the statement adds. *)
Definition object_attributes : list string :=
  ["__class__"; "__delattr__"; "__doc__"; "__format__"; "__getattribute__";
   "__hash__"; "__init__"; "__new__"; "__reduce__"; "__reduce_ex__"; "__repr__";
   "__setattr__"; "__sizeof__"; "__str__"; "__subclasshook__";
   "__dict__"; "__weakref__"; "__module__"].

(** The names normal lookup finds on a [Resource] instance: the two
    attributes [__init__] sets, what the class body and the two mixins
    define, and the attributes of [object]. *)
Definition Resource_attributes : list string :=
  ["_meta"; "_http_client";
   "Meta"; "__copy__"; "__call__"; "get_serializer"; "_request";
   "get"; "post"; "put"; "delete"; "__getattr__"] ++ object_attributes.

(** The same for an [API] instance, whose client is [http_client]. *)
Definition API_attributes : list string :=
  ["_meta"; "http_client"; "Meta"; "__getattr__"] ++ object_attributes.

(** [node.item]: [__getattr__] runs only when normal lookup fails. *)
Definition Resource_getattr (self : nat) (item : string) : M attribute :=
  o <- deref self;;
  if bool_decide (item ∈ Resource_attributes) then ret (Member item) else
  a <- ResourceAttributesMixin_getattr (res_meta o) item;;
  ret (Node a).

(** [api.item] *)
Definition API_getattr (self : APIObj) (item : string) : M attribute :=
  if bool_decide (item ∈ API_attributes) then ret (Member item) else
  a <- ResourceAttributesMixin_getattr (api_meta self) item;;
  ret (Node a).

(** [Resource.__call__(self, id=None, format=None, url_overide=None)] *)
Definition Resource_call (self : nat) (id format url_overide : pyval) : M nat :=
  if bool_decide (id = PNone ∧ format = PNone ∧ url_overide = PNone) then ret self else
  o <- deref self;;
  let kwargs := public_items (res_meta o) in
  kwargs <-
    (if bool_decide (id ≠ PNone) then
       base <- meta_attr (res_meta o) "base_url";;
       url <- lift (url_join base [id]);;
       ret (<["base_url" := PStr url]> kwargs)
     else ret kwargs);;
  let kwargs :=
    if bool_decide (format ≠ PNone) then <["format" := format]> kwargs else kwargs in
  let kwargs :=
    if bool_decide (url_overide ≠ PNone) then <["base_url" := url_overide]> kwargs
    else kwargs in
  Resource_init (res_class o) [] kwargs.

(** [Resource.__copy__]: the class of the node called with every entry of
    [self._meta.__dict__] as a keyword. *)
Definition Resource_copy (self : nat) : M nat :=
  o <- deref self;;
  Resource_init (res_class o) [] (res_meta o).

(** A call of [self] with the keywords [kw]: they are bound to the parameters of
    [__call__], and one that names no parameter is a [TypeError]. *)
Definition Resource_call_kw (self : nat) (kw : Meta) : M nat :=
  match (filter (λ k, k ∉ ["id"; "format"; "url_overide"]) (map_to_list kw).*1) with
  | k :: _ =>
      raise (TypeError ("__call__() got an unexpected keyword argument '" +:+ k +:+ "'"))
  | [] =>
      Resource_call self (default PNone (kw !! "id")) (default PNone (kw !! "format"))
        (default PNone (kw !! "url_overide"))
  end.

(** [API.__init__(self, base_url=None, **kwargs)] *)
Definition API_init (cls : pyclass) (base_url : pyval) (kwargs : Meta) : M APIObj :=
  let kwargs :=
    if bool_decide (base_url ≠ PNone) then <["base_url" := base_url]> kwargs
    else kwargs in
  meta <- MetaMixin_init object_init cls [] kwargs;;
  base <- meta_attr meta "base_url";;
  if bool_decide (base = PNone) then raise (ImproperlyConfigured "base_url is required") else
  client <- make_client meta;;
  ret (mkAPI cls meta client).

(** ** Collaborators *)

(** A codec as [slumber.serialize.Serializer] hands it out: the three
    operations the core calls, each of which may fail. *)
Record SerializerObj (data : Type) := mkSerializer {
  get_content_type : outcome string;
  loads : string → outcome data;
  dumps : data → outcome string
}.
Arguments get_content_type {data}.
Arguments loads {data}.
Arguments dumps {data}.

(** The transport and the serialization collaborator.  The answer of the
    transport may depend on the client (its credentials) and on every
    request sent before. *)
Class Collaborators (data : Type) := {
  http_request : HttpClient → list Request → Request → outcome (Response * string);
  Serializer : pyval → outcome (SerializerObj data)
}.

(** What a verb hands back: a decoded object, the raw content, or [None]. *)
Inductive retval (data : Type) :=
| Decoded (v : data)
| Content (c : string)
| Nothing.
Arguments Decoded {data} v.
Arguments Content {data} c.
Arguments Nothing {data}.

Section Verbs.
Context {data : Type} {transport : Collaborators data}.

(** [self._http_client.request(url, method, body=body, headers=headers)]:
    the request joins the trace and the transport answers. *)
Definition client_request (client : HttpClient) (rq : Request) : M (Response * string) :=
  λ w, (http_request client (trace w) rq, mkWorld (heap w) (trace w ++ [rq])).

(** [Resource.get_serializer] *)
Definition get_serializer (o : ResourceObj) : M (SerializerObj data) :=
  format <- meta_attr (res_meta o) "format";;
  lift (Serializer format).

(** [Resource._request(self, method, **kwargs)] *)
Definition _request (self : nat) (method : string) (kwargs : Meta)
    : M (Response * string) :=
  o <- deref self;;
  s <- get_serializer o;;
  url <- meta_attr (res_meta o) "base_url";;
  let '(body, kwargs) :=
    match kwargs !! "body" with
    | Some body => (body, delete "body" kwargs)
    | None => (PNone, kwargs)
    end in
  url <-
    (if bool_decide (kwargs ≠ ∅) then
       match url with
       | PStr u => ret (PStr (PyStr.join "?" [u; urllib.urlencode (map_to_list kwargs)]))
       | _ => raise (TypeError "sequence item 0: expected string")
       end
     else ret url);;
  content_type <- lift (get_content_type s);;
  rc <- client_request (res_http_client o)
          (mkRequest url method body [("content-type", content_type)]);;
  let '(resp, content) := rc in
  if bool_decide (400 ≤ status resp ≤ 499)%Z then
    raise (HttpClientError
             ("Client Error " +:+ py_str (PInt (status resp)) +:+ ": " +:+ py_str url)
             resp content)
  else if bool_decide (500 ≤ status resp ≤ 599)%Z then
    raise (HttpServerError
             ("Server Error " +:+ py_str (PInt (status resp)) +:+ ": " +:+ py_str url)
             resp content)
  else ret (resp, content).

(** [Resource.get(self, **kwargs)] *)
Definition Resource_get (self : nat) (kwargs : Meta) : M (retval data) :=
  o <- deref self;;
  s <- get_serializer o;;
  rc <- _request self "GET" kwargs;;
  let '(resp, content) := rc in
  if bool_decide (200 ≤ status resp ≤ 299)%Z then
    if bool_decide (status resp = 200)%Z then
      v <- lift (loads s content);;
      ret (Decoded v)
    else ret (Content content)
  else ret Nothing.

(** A call [self._request(method, body=body, **kwargs)]: a [body] among the
    extra keywords is a second value for the same parameter. *)
Definition _request_with_body (self : nat) (method : string) (body : string)
    (kwargs : Meta) : M (Response * string) :=
  if bool_decide (is_Some (kwargs !! "body")) then
    raise (TypeError "_request() got multiple values for keyword argument 'body'")
  else _request self method (<["body" := PStr body]> kwargs).

(** [Resource.post(self, data, **kwargs)] *)
Definition Resource_post (self : nat) (d : data) (kwargs : Meta) : M (retval data) :=
  o <- deref self;;
  s <- get_serializer o;;
  body <- lift (dumps s d);;
  rc <- _request_with_body self "POST" body kwargs;;
  let '(resp, content) := rc in
  if bool_decide (200 ≤ status resp ≤ 299)%Z then
    if bool_decide (status resp = 201)%Z then
      location <-
        match resp_headers resp !! "location" with
        | Some l => ret l
        | None => raise (KeyError "location")
        end;;
      resource_obj <- Resource_call_kw self {[ "url_override" := PStr location ]};;
      Resource_get resource_obj kwargs
    else ret (Content content)
  else ret Nothing.

(** [Resource.put(self, data, **kwargs)] *)
Definition Resource_put (self : nat) (d : data) (kwargs : Meta) : M bool :=
  o <- deref self;;
  s <- get_serializer o;;
  body <- lift (dumps s d);;
  rc <- _request_with_body self "PUT" body kwargs;;
  let '(resp, content) := rc in
  if bool_decide (200 ≤ status resp ≤ 299)%Z then
    if bool_decide (status resp = 204)%Z then ret true
    else ret true
  else ret false.

(** [Resource.delete(self, **kwargs)] *)
Definition Resource_delete (self : nat) (kwargs : Meta) : M bool :=
  rc <- _request self "DELETE" kwargs;;
  let '(resp, content) := rc in
  if bool_decide (200 ≤ status resp ≤ 299)%Z then
    if bool_decide (status resp = 204)%Z then ret true
    else ret true
  else ret false.

(** A call of one of the four verbs on a node, as a caller writes it. *)
Inductive verb_call :=
| CallGet (kwargs : Meta)
| CallPost (d : data) (kwargs : Meta)
| CallPut (d : data) (kwargs : Meta)
| CallDelete (kwargs : Meta).

Inductive verb_result :=
| Returned (v : retval data)
| ReturnedBool (b : bool).

Definition verb_method (c : verb_call) : string :=
  match c with
  | CallGet _ => "GET"
  | CallPost _ _ => "POST"
  | CallPut _ _ => "PUT"
  | CallDelete _ => "DELETE"
  end.


Definition call_verb (self : nat) (c : verb_call) : M verb_result :=
  match c with
  | CallGet kwargs => v <- Resource_get self kwargs;; ret (Returned v)
  | CallPost d kwargs => v <- Resource_post self d kwargs;; ret (Returned v)
  | CallPut d kwargs => b <- Resource_put self d kwargs;; ret (ReturnedBool b)
  | CallDelete kwargs => b <- Resource_delete self kwargs;; ret (ReturnedBool b)
  end.

(** The keywords a verb hands to [_request]: its own, and for [post] and
    [put] the encoded data under [body]; none when the encoding fails or the
    caller passed a [body] of its own. *)
Definition verb_request_kwargs (s : SerializerObj data) (c : verb_call) : option Meta :=
  match c with
  | CallGet kwargs | CallDelete kwargs => Some kwargs
  | CallPost d kwargs | CallPut d kwargs =>
      match kwargs !! "body", dumps s d with
      | None, Ok body => Some (<["body" := PStr body]> kwargs)
      | _, _ => None
      end
  end.

(** [url] is [base] followed by the encoded query [kwargs] minus [body]. *)
Definition with_query (base : pyval) (kwargs : Meta) (url : pyval) : Prop :=
  if decide (delete "body" kwargs = ∅) then url = base
  else ∃ u, base = PStr u
            ∧ url = PStr (u +:+ "?" +:+ urllib.urlencode (map_to_list (delete "body" kwargs))).

(** Lines 154 to 159 of [_request] on the answer of the transport. *)
Definition dispatch (url : pyval) (a : outcome (Response * string))
    : outcome (Response * string) :=
  match a with
  | Ok (resp, content) =>
      if bool_decide (400 ≤ status resp ≤ 499)%Z then
        Raise (HttpClientError
                 ("Client Error " +:+ py_str (PInt (status resp)) +:+ ": " +:+ py_str url)
                 resp content)
      else if bool_decide (500 ≤ status resp ≤ 599)%Z then
        Raise (HttpServerError
                 ("Server Error " +:+ py_str (PInt (status resp)) +:+ ": " +:+ py_str url)
                 resp content)
      else Ok (resp, content)
  | Raise e => Raise e
  end.

End Verbs.
Arguments verb_call : clear implicits.
Arguments verb_result : clear implicits.

(** ** Navigation and a scripted run, for concrete runs *)

(** Neither a question mark nor a hash in [s]. *)
Definition no_qf (s : string) : Prop :=
  PyStr.contains "?" s = false ∧ PyStr.contains "#" s = false.

(** Two slashes in a row somewhere in [s]. *)
Fixpoint double_slash (s : string) : bool :=
  match s with
  | EmptyString => false
  | String a s' =>
      match s' with
      | String b _ => (Ascii.eqb a "/" && Ascii.eqb b "/") || double_slash s'
      | EmptyString => false
      end
  end.

(** One navigation step of a caller: [node.item] or [node(id)]. *)
Inductive nav_step :=
| Attr (item : string)
| Id (id : pyval).

Definition nav_segment (st : nav_step) : pyval :=
  match st with
  | Attr item => PStr item
  | Id id => id
  end.

Definition navigate_step (self : nat) (st : nav_step) : M attribute :=
  match st with
  | Attr item => Resource_getattr self item
  | Id id => a <- Resource_call self id PNone PNone;; ret (Node a)
  end.

(** A step that names a path segment: an attribute that does not begin with
    an underscore and that normal lookup does not find on the node, or an id
    that is given; in both cases free of ["?"] and ["#"]. *)
Definition step_ok (st : nav_step) : Prop :=
  match st with
  | Attr item =>
      PyStr.startswith "_" item = false ∧ (item ∉ Resource_attributes) ∧ no_qf item
  | Id id => id ≠ PNone ∧ no_qf (py_str id)
  end.

(** Where a chain of steps ends: at a node, or at a member of a node (a verb,
    say) together with the steps that were still to come; what those do with
    the member is no navigation and is not followed here. *)
Inductive nav_result :=
| Reached (a : nat)
| LeftAt (name : string) (rest : list nav_step).

(** [node.s1.s2(...)...]: the steps applied one after the other, as long as
    they stay among nodes. *)
Fixpoint navigate (self : nat) (steps : list nav_step) : M nav_result :=
  match steps with
  | [] => ret (Reached self)
  | st :: steps' =>
      v <- navigate_step self st;;
      match v with
      | Node next => navigate next steps'
      | Member name => ret (LeftAt name steps')
      end
  end.

(** A codec on strings that marks what it decodes and encodes. *)
Definition tagging_serializer (fmt : string) : SerializerObj string :=
  mkSerializer string (Ok ("application/" +:+ fmt))
    (λ content, Ok ("decoded:" +:+ content))
    (λ d, Ok ("encoded:" +:+ d)).

(** A transport that answers the n-th request with the n-th entry of a
    script, and a codec for every format given as a string. *)
Definition scripted (script : list (Response * string)) : Collaborators string :=
  {| http_request := λ _ tr _,
       match script !! length tr with
       | Some a => Ok a
       | None => Raise (CollaboratorError "connection refused")
       end;
     Serializer := λ fmt,
       match fmt with
       | PStr f => Ok (tagging_serializer f)
       | _ => Raise (CollaboratorError "no serializer")
       end |}.

Definition empty_world : world := mkWorld [] [].

(** The world after [Resource(base_url=u)] and the address of that node. *)
Definition world_with (u : string) : outcome nat * world :=
  Resource_init Resource_class [] {[ "base_url" := PStr u ]} empty_world.

(** The part of a written URL that a component adds: nothing when the
    component is empty, else the component after its separator. *)
Definition opt_part (sep : string) (s : string) : string :=
  if String.eqb s "" then "" else sep +:+ s.

(** The client a constructor makes from the resolved credentials. *)
Definition client_of (authentication : pyval) : outcome HttpClient :=
  match authentication with
  | PNone => Ok (mkClient [])
  | PDict fields => Ok (mkClient [fields])
  | _ => Raise (TypeError "add_credentials() argument after ** must be a mapping")
  end.

(** The path segments that a list of navigation steps names. *)
Definition segments (steps : list nav_step) : list string :=
  (λ st, py_str (nav_segment st)) <$> steps.

(** ** Worlds and exchanges for the examples *)

(** The node that [Resource(base_url=u)] makes. *)
Definition api_node (u : string) : ResourceObj :=
  mkResource Resource_class
    (<["base_url" := PStr u]> (merge_metas (metas_of Resource_class)))
    (mkClient []).

(** A world that holds this node at address 0 and has sent nothing. *)
Definition api_world (u : string) : world := mkWorld [api_node u] [].

(** [class Tickets(Resource)] with [class Meta: format = "xml"; page_size = 50]. *)
Definition Tickets_class : pyclass :=
  mkClass ResourceClass
    [{[ "format" := PStr "xml"; "page_size" := PInt 50;
        "__module__" := PStr "tickets"; "__doc__" := PNone ]}].

(** The node that [Tickets(base_url=u)] makes. *)
Definition tickets_node (u : string) : ResourceObj :=
  mkResource Tickets_class
    (<["base_url" := PStr u]> (merge_metas (metas_of Tickets_class)))
    (mkClient []).

(** A request as a node of format [json] sends it. *)
Definition json_request (url method : string) (body : pyval) : Request :=
  mkRequest (PStr url) method body [("content-type", "application/json")].

(* ------------------------------------------------------------------ *)
(** * Properties *)

Import urlparse.

(** Closed goals are settled by evaluation: equations by computing both
    sides, decidable statements on finite maps and sets by their decision
    procedure. *)
Ltac by_compute := vm_compute; reflexivity.
Ltac by_decide := apply (bool_decide_unpack _); vm_compute; exact I.

(** Concrete steps are path segments. *)
Ltac attr_ok := split; [reflexivity | split; [by_decide | split; by_compute]].
Ltac id_ok := split; [discriminate | split; by_compute].
Ltac steps_ok := repeat (constructor; [first [attr_ok | id_ok] |]); constructor.


(** ** Strings and URLs *)

(** ** Strings *)

Lemma append_cons (x : ascii) (a b : string) : String x a +:+ b = String x (a +:+ b).
Proof. reflexivity. Qed.

Lemma append_nil_l (b : string) : "" +:+ b = b.
Proof. reflexivity. Qed.

Lemma append_assoc_s (a b c : string) : (a +:+ b) +:+ c = a +:+ (b +:+ c).
Proof. induction a as [|x a IH]; [done|]. rewrite !append_cons. by f_equal. Qed.

Lemma append_empty_r (a : string) : a +:+ "" = a.
Proof. induction a as [|x a IH]; [done|]. rewrite append_cons. by f_equal. Qed.

Lemma length_append (a b : string) :
  String.length (a +:+ b) = String.length a + String.length b.
Proof. induction a as [|x a IH]; [done|]. rewrite append_cons. simpl. by f_equal. Qed.

Lemma take_app_length (a b : string) : PyStr.take (String.length a) (a +:+ b) = a.
Proof.
  induction a as [|x a IH]; [by destruct b|]. rewrite append_cons. simpl. by f_equal.
Qed.

Lemma drop_app_length (a b : string) : PyStr.drop (String.length a) (a +:+ b) = b.
Proof. induction a as [|x a IH]; [by destruct b|]. by rewrite append_cons. Qed.

Lemma take_length (a : string) : PyStr.take (String.length a) a = a.
Proof. rewrite <- (append_empty_r a) at 2. apply take_app_length. Qed.

Lemma find_app_notin (c : ascii) (a b : string) :
  PyStr.find c a = None →
  PyStr.find c (a +:+ b) = (λ i, String.length a + i) <$> PyStr.find c b.
Proof.
  induction a as [|x a IH]; [rewrite append_nil_l|rewrite append_cons]; simpl.
  - intros _. by destruct (PyStr.find c b).
  - destruct (Ascii.eqb x c); [done|].
    destruct (PyStr.find c a) eqn:E; [done|]. intros _.
    rewrite IH by done. by destruct (PyStr.find c b).
Qed.

Lemma find_head (c : ascii) (s : string) : PyStr.find c (String c s) = Some 0.
Proof. simpl. by rewrite Ascii.eqb_refl. Qed.

Lemma contains_false_find (c : ascii) (s : string) :
  PyStr.contains c s = false ↔ PyStr.find c s = None.
Proof. unfold PyStr.contains. destruct (PyStr.find c s); split; done. Qed.

Lemma contains_app (c : ascii) (a b : string) :
  PyStr.contains c (a +:+ b) = PyStr.contains c a || PyStr.contains c b.
Proof.
  unfold PyStr.contains. induction a as [|x a IH]; [done|].
  rewrite append_cons. simpl. destruct (Ascii.eqb x c); [done|].
  destruct (PyStr.find c (a +:+ b)), (PyStr.find c a); simpl in *; done.
Qed.

Lemma contains_cons (c x : ascii) (s : string) :
  PyStr.contains c (String x s) = Ascii.eqb x c || PyStr.contains c s.
Proof.
  unfold PyStr.contains. simpl. destruct (Ascii.eqb x c); [done|].
  by destruct (PyStr.find c s).
Qed.

Lemma drop_S_app_length (a : string) (c : ascii) (b : string) :
  PyStr.drop (S (String.length a)) (a +:+ String c b) = b.
Proof. induction a as [|x a IH]; [done|]. by rewrite append_cons. Qed.

(** Splitting at the first [c] of [a c b] gives [a] and [b]. *)
Lemma split1_app (c : ascii) (a b : string) :
  PyStr.contains c a = false →
  PyStr.split1 c (a +:+ String c b) = (a, b)
  ∧ PyStr.contains c (a +:+ String c b) = true.
Proof.
  intros Ha. unfold PyStr.split1.
  rewrite contains_app, contains_cons, Ascii.eqb_refl, orb_true_r.
  apply contains_false_find in Ha. rewrite (find_app_notin _ _ _ Ha), find_head.
  cbn -[PyStr.drop PyStr.take String.length].
  by rewrite Nat.add_0_r, take_app_length, drop_S_app_length.
Qed.

(** ** urlparse *)


Lemma find_from_2 (c : ascii) (x : string) :
  PyStr.find_from c 2 ("//" +:+ x) = (λ i, 2 + i) <$> PyStr.find c x.
Proof. reflexivity. Qed.

Lemma splitnetloc_spec (nl tail : string) :
  PyStr.contains "/" nl = false → PyStr.contains "?" nl = false →
  PyStr.contains "#" nl = false →
  (tail = "" ∨ ∃ d t, tail = String d t ∧ (d = "/" ∨ d = "?" ∨ d = "#")%char) →
  _splitnetloc ("//" +:+ nl +:+ tail) 2 = (nl, tail).
Proof.
  intros H1 H2 H3 Htail. unfold _splitnetloc.
  apply contains_false_find in H1, H2, H3.
  assert (Hd : fold_left
                 (λ delim c, match PyStr.find_from c 2 ("//" +:+ nl +:+ tail) with
                             | Some wdelim => Nat.min delim wdelim
                             | None => delim
                             end)
                 ["/"; "?"; "#"]%char (String.length ("//" +:+ nl +:+ tail))
               = String.length ("//" +:+ nl)).
  { cbn [fold_left]. rewrite !find_from_2.
    rewrite (find_app_notin _ _ _ H1), (find_app_notin _ _ _ H2), (find_app_notin _ _ _ H3).
    rewrite !length_append. change (String.length "//") with 2.
    destruct Htail as [-> | (d & t & -> & Hd)].
    - simpl. lia.
    - destruct Hd as [-> | [-> | ->]]; cbn -[Nat.min];
        repeat (destruct (PyStr.find _ t); cbn -[Nat.min]); lia. }
  rewrite Hd. rewrite <- append_assoc_s.
  rewrite take_app_length, drop_app_length. done.
Qed.


Lemma eqb_empty_false (s : string) : s ≠ "" → String.eqb s "" = false.
Proof. intros H. by apply String.eqb_neq. Qed.

(** The fragment and query steps of [split_rest] on a tail that
    [urlunsplit] wrote. *)
Lemma split_tail (p q f : string) :
  PyStr.contains "?" p = false → PyStr.contains "#" p = false →
  PyStr.contains "#" q = false →
  let tail := p +:+ opt_part "?" q +:+ opt_part "#" f in
  let '(url, fragment) :=
    if PyStr.contains "#" tail then PyStr.split1 "#" tail else (tail, EmptyString) in
  let '(url, query) :=
    if PyStr.contains "?" url then PyStr.split1 "?" url else (url, EmptyString) in
  (url, query, fragment) = (p, q, f).
Proof.
  intros Hpq Hpf Hqf tail.
  assert (Hx : PyStr.contains "#" (p +:+ opt_part "?" q) = false).
  { rewrite contains_app, Hpf. unfold opt_part. destruct (String.eqb q ""); [done|].
    change ("?" +:+ q) with (String "?" q). by rewrite contains_cons, Hqf. }
  assert (Hfrag : (if PyStr.contains "#" tail then PyStr.split1 "#" tail
                   else (tail, EmptyString)) = (p +:+ opt_part "?" q, f)).
  { unfold tail. rewrite <- append_assoc_s.
    destruct (String.eqb f "") eqn:Ef.
    - apply String.eqb_eq in Ef as ->. change (opt_part "#" "") with "".
      rewrite append_empty_r. by rewrite Hx.
    - unfold opt_part at 2 4 6. rewrite Ef. change ("#" +:+ f) with (String "#" f).
      destruct (split1_app "#" _ f Hx) as [-> ->]. done. }
  rewrite Hfrag.
  assert (Hq : (if PyStr.contains "?" (p +:+ opt_part "?" q)
                then PyStr.split1 "?" (p +:+ opt_part "?" q)
                else (p +:+ opt_part "?" q, EmptyString)) = (p, q)).
  { destruct (String.eqb q "") eqn:Eq.
    - apply String.eqb_eq in Eq as ->. change (opt_part "?" "") with "".
      rewrite append_empty_r. by rewrite Hpq.
    - unfold opt_part. rewrite Eq. change ("?" +:+ q) with (String "?" q).
      destruct (split1_app "?" _ q Hpq) as [-> ->]. done. }
  by rewrite Hq.
Qed.

Lemma scheme_char_no_colon (s : string) :
  PyStr.forallb scheme_char s = true → PyStr.contains ":" s = false.
Proof.
  induction s as [|a s IH]; [done|]. simpl. intros [Ha Hs]%andb_prop.
  rewrite contains_cons, (IH Hs), orb_false_r.
  destruct (Ascii.eqb a ":") eqn:E; [|done].
  apply Ascii.eqb_eq in E as ->. done.
Qed.

Lemma rooted_cases (p : string) :
  rooted p = "" ∧ p = "" ∨ ∃ t, rooted p = String "/" t.
Proof.
  unfold rooted. destruct p as [|a p]; [by left|]. right. simpl.
  destruct p as [|b p]; simpl.
  - destruct (Ascii.eqb a "/") eqn:E; simpl.
    + apply Ascii.eqb_eq in E as ->. eauto.
    + eauto.
  - destruct (Ascii.eqb a "/") eqn:E; simpl.
    + apply Ascii.eqb_eq in E as ->. eauto.
    + eauto.
Qed.

Lemma urlunsplit_abs (sc nl p q f : string) :
  sc ≠ "" → nl ≠ "" →
  urlunsplit (mkSplit sc nl p q f)
  = sc +:+ ":" +:+ ("//" +:+ nl +:+ (rooted p +:+ opt_part "?" q +:+ opt_part "#" f)).
Proof.
  intros Hsc Hnl. unfold urlunsplit, opt_part. cbn [scheme netloc path query fragment].
  rewrite (eqb_empty_false _ Hsc), (eqb_empty_false _ Hnl). cbn [negb orb].
  fold (rooted p).
  destruct (String.eqb q ""), (String.eqb f ""); cbn [negb];
    rewrite ?append_assoc_s, ?append_empty_r; done.
Qed.

Lemma startswith_dslash (x : string) : PyStr.startswith "//" ("//" +:+ x) = true.
Proof.
  unfold PyStr.startswith. change ("//" +:+ x) with (String "/" (String "/" x)).
  simpl. by destruct x.
Qed.

Lemma not_empty_length (s : string) : s ≠ "" → ∃ n, String.length s = S n.
Proof. destruct s; [done|]. simpl. eauto. Qed.

(** Splitting what [urlunsplit] wrote gives the parts back, the path rooted. *)
Lemma urlsplit_urlunsplit (sc nl p q f : string) :
  wf_split (mkSplit sc nl p q f) →
  urlsplit (urlunsplit (mkSplit sc nl p q f)) = Some (mkSplit sc nl (rooted p) q f).
Proof.
  intros [Hsc Hchars Hlower Hnl H1 H2 H3 Hbr Hpq Hpf Hqf]. simpl in *.
  rewrite (urlunsplit_abs sc nl p q f Hsc Hnl).
  set (tail := rooted p +:+ opt_part "?" q +:+ opt_part "#" f).
  set (rest := "//" +:+ nl +:+ tail).
  assert (Hrest : split_rest sc rest = Some (mkSplit sc nl (rooted p) q f)).
  { unfold split_rest.
    unfold rest. rewrite startswith_dslash. rewrite splitnetloc_spec; try done.
    - rewrite Hbr. destruct (PyStr.contains "]" nl); cbn [negb andb orb]; cbv iota.
      all: assert (Hrq : PyStr.contains "?" (rooted p) = false)
             by (unfold rooted; destruct (_ && _); [by rewrite contains_app, Hpq|done]).
      all: assert (Hrf : PyStr.contains "#" (rooted p) = false)
             by (unfold rooted; destruct (_ && _); [by rewrite contains_app, Hpf|done]).
      all: pose proof (split_tail (rooted p) q f Hrq Hrf Hqf) as Ht; cbv zeta in Ht;
        fold tail in Ht.
      all: destruct (if PyStr.contains "#" tail then _ else _) as [url fragment].
      all: destruct (if PyStr.contains "?" url then _ else _) as [url' query].
      all: by inversion Ht.
    - unfold tail. destruct (rooted_cases p) as [[-> ->]|[t ->]].
      + rewrite append_nil_l. unfold opt_part.
        destruct (String.eqb q ""); [|right; eexists _, _; split; [reflexivity|eauto]].
        rewrite append_nil_l.
        destruct (String.eqb f ""); [by left|right; eexists _, _; split; [reflexivity|eauto]].
      + right. rewrite append_cons. eauto. }
  unfold urlsplit.
  pose proof (scheme_char_no_colon sc Hchars) as Hcolon.
  apply contains_false_find in Hcolon.
  destruct (not_empty_length sc Hsc) as [n Hn].
  change (":" +:+ rest) with (String ":" rest).
  rewrite (find_app_notin _ _ _ Hcolon), find_head. cbn [fmap option_fmap option_map].
  rewrite Nat.add_0_r, Hn. rewrite <- Hn.
  rewrite take_app_length, drop_S_app_length, Hlower, Hchars.
  destruct (String.eqb sc "http"); [done|].
  assert (PyStr.forallb PyStr.is_digit rest = false) as -> by done.
  by rewrite orb_true_r.
Qed.

(** ** posixpath.join and rooted paths *)

Lemma rooted_cons (a : ascii) (x : string) :
  rooted (String a x) = if Ascii.eqb a "/" then String a x else String "/" (String a x).
Proof.
  unfold rooted. simpl. by destruct (Ascii.eqb a "/").
Qed.

Lemma rooted_idem (p : string) : rooted (rooted p) = rooted p.
Proof.
  destruct p as [|a x]; [done|]. rewrite rooted_cons.
  destruct (Ascii.eqb a "/") eqn:E; rewrite rooted_cons; [by rewrite E|done].
Qed.

Lemma join_step_rooted (x s : string) :
  rooted (posixpath.join_step (rooted x) s) = rooted (posixpath.join_step x s).
Proof.
  destruct x as [|a x]; [done|]. rewrite rooted_cons.
  destruct (Ascii.eqb a "/") eqn:E; [done|].
  unfold posixpath.join_step. destruct (PyStr.startswith "/" s); [done|].
  cbn [String.eqb orb].
  change (PyStr.endswith "/" (String "/" (String a x)))
    with (PyStr.endswith "/" (String a x)).
  destruct (PyStr.endswith "/" (String a x));
    rewrite !append_cons, !rooted_cons, E; done.
Qed.

Lemma join_rooted (ss : list string) (x : string) :
  rooted (posixpath.join (rooted x) ss) = rooted (posixpath.join x ss).
Proof.
  unfold posixpath.join. revert x. induction ss as [|s ss IH]; intros x; simpl.
  - apply rooted_idem.
  - rewrite <- (IH (posixpath.join_step (rooted x) s)), join_step_rooted. apply IH.
Qed.

Lemma no_qf_app (a b : string) : no_qf a → no_qf b → no_qf (a +:+ b).
Proof. intros [H1 H2] [H3 H4]. split; by rewrite contains_app, ?H1, ?H2, ?H3, ?H4. Qed.

Lemma no_qf_join_step (x s : string) :
  no_qf x → no_qf s → no_qf (posixpath.join_step x s).
Proof.
  intros Hx Hs. unfold posixpath.join_step.
  destruct (PyStr.startswith "/" s); [done|].
  destruct (_ || _); repeat apply no_qf_app; done.
Qed.

Lemma no_qf_join (ss : list string) (x : string) :
  no_qf x → Forall no_qf ss → no_qf (posixpath.join x ss).
Proof.
  unfold posixpath.join. revert x. induction ss as [|s ss IH]; intros x Hx Hss; [done|].
  inversion Hss; subst. simpl. apply IH; [|done]. by apply no_qf_join_step.
Qed.

Lemma no_qf_rooted (x : string) : no_qf x → no_qf (rooted x).
Proof. intros Hx. unfold rooted. destruct (_ && _); [|done]. by apply no_qf_app. Qed.

(** ** What [urlsplit] returns *)

Lemma contains_take_before (c : ascii) (s : string) (n : nat) :
  (∀ i, PyStr.find c s = Some i → (n ≤ i)%nat) → PyStr.contains c (PyStr.take n s) = false.
Proof.
  revert n. induction s as [|a s IH]; intros n Hn; [by destruct n|].
  destruct n as [|n]; [done|]. simpl in *. rewrite contains_cons.
  destruct (Ascii.eqb a c) eqn:E.
  - specialize (Hn 0 eq_refl). lia.
  - simpl. apply IH. intros i Hi. rewrite Hi in Hn. specialize (Hn (S i) eq_refl). lia.
Qed.

Lemma contains_take (c : ascii) (s : string) (n : nat) :
  PyStr.contains c s = false → PyStr.contains c (PyStr.take n s) = false.
Proof.
  intros H. apply contains_take_before. intros i Hi.
  apply contains_false_find in H. congruence.
Qed.

Lemma contains_drop (c : ascii) (s : string) (n : nat) :
  PyStr.contains c s = false → PyStr.contains c (PyStr.drop n s) = false.
Proof.
  revert n. induction s as [|a s IH]; intros n H; [by destruct n|].
  destruct n as [|n]; [done|]. simpl. apply IH.
  rewrite contains_cons in H. by apply orb_false_elim in H as [_ ?].
Qed.

Lemma drop_take (a b : nat) (s : string) :
  PyStr.drop a (PyStr.take b s) = PyStr.take (b - a) (PyStr.drop a s).
Proof.
  revert a b. induction s as [|x s IH]; intros a b.
  - destruct a, b; simpl; try done. by destruct (b - a).
  - destruct a as [|a], b as [|b]; simpl; done.
Qed.

(** The first component of [split1], and the component when [c] is absent,
    hold no [c]. *)
Lemma split1_fst (c : ascii) (s : string) :
  PyStr.contains c (if PyStr.contains c s then PyStr.split1 c s else (s, EmptyString)).1
  = false.
Proof.
  destruct (PyStr.contains c s) eqn:E; [|exact E].
  unfold PyStr.split1. destruct (PyStr.find c s) as [i|] eqn:Hi; cbn [fst].
  2: { apply contains_false_find in Hi. congruence. }
  apply contains_take_before. intros j Hj. rewrite Hi in Hj. injection Hj as <-. lia.
Qed.

Lemma split1_keeps (c d : ascii) (s : string) :
  PyStr.contains d s = false →
  let r := if PyStr.contains c s then PyStr.split1 c s else (s, EmptyString) in
  PyStr.contains d r.1 = false ∧ PyStr.contains d r.2 = false.
Proof.
  intros Hd. destruct (PyStr.contains c s); [|by split]. unfold PyStr.split1.
  destruct (PyStr.find c s) as [n|]; cbn [fst snd]; [|by split].
  split; [by apply contains_take|by apply (contains_drop d s (S n))].
Qed.

Lemma splitnetloc_netloc (url : string) (c : ascii) :
  c ∈ ["/"; "?"; "#"]%char → PyStr.contains c (_splitnetloc url 2).1 = false.
Proof.
  intros Hc. unfold _splitnetloc. cbn [fst fold_left]. rewrite drop_take.
  apply contains_take_before. intros i Hi.
  unfold PyStr.find_from.
  repeat (apply elem_of_cons in Hc as [->|Hc]);
    [| | |by apply elem_of_nil in Hc];
    rewrite Hi; cbn [fmap option_fmap option_map];
    repeat (destruct (PyStr.find _ (PyStr.drop 2 url)); cbn [fmap option_fmap option_map]);
    lia.
Qed.

Lemma lower_char_facts (a : ascii) :
  PyStr.lower_char (PyStr.lower_char a) = PyStr.lower_char a
  ∧ (scheme_char a = true → scheme_char (PyStr.lower_char a) = true).
Proof.
  destruct a as [[] [] [] [] [] [] [] []];
    (split; [reflexivity | intros H; first [reflexivity | discriminate H]]).
Qed.

Lemma lower_scheme (s : string) :
  PyStr.lower (PyStr.lower s) = PyStr.lower s
  ∧ (PyStr.forallb scheme_char s = true →
     PyStr.forallb scheme_char (PyStr.lower s) = true).
Proof.
  induction s as [|a s [IH1 IH2]]; [done|]. simpl.
  destruct (lower_char_facts a) as [H1 H2]. rewrite H1, IH1. split; [done|].
  intros [Ha Hs]%andb_prop. by rewrite (H2 Ha), (IH2 Hs).
Qed.

Lemma split_rest_wf (sc url : string) (r : SplitResult) :
  split_rest sc url = Some r →
  scheme r = sc
  ∧ (netloc r ≠ "" →
     PyStr.contains "/" (netloc r) = false ∧ PyStr.contains "?" (netloc r) = false
     ∧ PyStr.contains "#" (netloc r) = false
     ∧ PyStr.contains "[" (netloc r) = PyStr.contains "]" (netloc r))
  ∧ PyStr.contains "?" (path r) = false ∧ PyStr.contains "#" (path r) = false
  ∧ PyStr.contains "#" (query r) = false.
Proof.
  unfold split_rest.
  set (nu := if PyStr.startswith "//" url then _ else _).
  assert (Hnl : nu.1.1 ≠ "" →
            PyStr.contains "/" nu.1.1 = false ∧ PyStr.contains "?" nu.1.1 = false
            ∧ PyStr.contains "#" nu.1.1 = false
            ∧ (nu.2 = true → PyStr.contains "[" nu.1.1 = PyStr.contains "]" nu.1.1)).
  { unfold nu. destruct (PyStr.startswith "//" url); [|done]. intros _.
    pose proof (splitnetloc_netloc url "/" ltac:(set_solver)).
    pose proof (splitnetloc_netloc url "?" ltac:(set_solver)).
    pose proof (splitnetloc_netloc url "#" ltac:(set_solver)).
    destruct (_splitnetloc url 2) as [nl rest]. simpl in *.
    repeat (split; [done|]).
    by destruct (PyStr.contains "[" nl), (PyStr.contains "]" nl). }
  destruct nu as [[nl rest] ok]. simpl in Hnl.
  destruct ok; [|done]. cbn [negb].
  pose proof (split1_fst "#" rest) as Hf.
  destruct (if PyStr.contains "#" rest then _ else _) as [url3 frag]. simpl in Hf.
  pose proof (split1_fst "?" url3) as Hq.
  pose proof (split1_keeps "?" "#" url3 Hf) as [Hq1 Hq2].
  destruct (if PyStr.contains "?" url3 then _ else _) as [url4 qu]. simpl in *.
  intros [= <-]. simpl. split; [done|]. split; [|done].
  intros Hne. destruct (Hnl Hne) as (?&?&?&Hbr). repeat (split; [done|]). by apply Hbr.
Qed.

(** An absolute URL splits into well-formed parts. *)
Lemma urlsplit_wf (u : string) (r : SplitResult) :
  urlsplit u = Some r → scheme r ≠ "" → netloc r ≠ "" → wf_split r.
Proof.
  unfold urlsplit. intros Hsplit Hsc Hnl.
  assert (∃ t rest, split_rest (PyStr.lower t) rest = Some r
                    ∧ (t = "http" ∨ PyStr.forallb scheme_char t = true))
    as (t & rest & Hr & Ht).
  { assert (Hempty : ∀ x, split_rest "" x = Some r → False).
    { intros x Hx. apply split_rest_wf in Hx as [Hx _]. by rewrite Hx in Hsc. }
    destruct (PyStr.find ":" u) as [[|i]|]; try (by exfalso; eapply Hempty).
    destruct (String.eqb _ "http") eqn:E.
    - apply String.eqb_eq in E. eauto.
    - destruct (PyStr.forallb scheme_char _) eqn:Hch; [|by exfalso; eapply Hempty].
      destruct (_ || _); [eauto|by exfalso; eapply Hempty]. }
  assert (Hchars : PyStr.forallb scheme_char t = true).
  { by destruct Ht as [->|?]. }
  destruct (split_rest_wf _ _ _ Hr) as (Hs & Hn & Hp1 & Hp2 & Hq).
  destruct (Hn Hnl) as (?&?&?&?).
  destruct (lower_scheme t) as [Hl1 Hl2].
  constructor; try done; rewrite Hs; [by apply Hl2|done].
Qed.

(** ** The encoding of a query *)












(** ** The state and exception monad *)


Lemma bind_inv {A B} (m : M A) (k : A → M B) (w : world) (r : outcome B) (w' : world) :
  bind m k w = (r, w') →
  (∃ e, m w = (Raise e, w') ∧ r = Raise e)
  ∨ (∃ a w1, m w = (Ok a, w1) ∧ k a w1 = (r, w')).
Proof.
  unfold bind. destruct (m w) as [[a|e] w1]; intros H.
  - right. eauto.
  - left. inversion H; subst. eauto.
Qed.

Lemma bind_ok {A B} (m : M A) (k : A → M B) (w w1 : world) (a : A) :
  m w = (Ok a, w1) → bind m k w = k a w1.
Proof. unfold bind. by intros ->. Qed.

Lemma bind_raise {A B} (m : M A) (k : A → M B) (w w1 : world) (e : exn) :
  m w = (Raise e, w1) → bind m k w = (Raise e, w1).
Proof. unfold bind. by intros ->. Qed.

Lemma bind_assoc {A B C} (m : M A) (k : A → M B) (k' : B → M C) (w : world) :
  bind (bind m k) k' w = bind m (λ a, bind (k a) k') w.
Proof. unfold bind. by destruct (m w) as [[a|e] w1]. Qed.

Lemma lift_ok {A} (x : outcome A) (a : A) (w : world) :
  x = Ok a → lift x w = (Ok a, w).
Proof. unfold lift. by intros ->. Qed.

Lemma deref_ok (self : nat) (w : world) (o : ResourceObj) :
  heap w !! self = Some o → deref self w = (Ok o, w).
Proof. unfold deref. by intros ->. Qed.


(** ** Settings and constructors *)

Lemma public_items_lookup (d : Meta) (k : string) :
  public_items d !! k = if PyStr.startswith "_" k then None else d !! k.
Proof.
  unfold public_items.
  destruct (PyStr.startswith "_" k) eqn:E.
  - apply map_lookup_filter_None. right. intros v _ H. simpl in H. congruence.
  - destruct (d !! k) as [v|] eqn:L.
    + apply map_lookup_filter_Some. split; [done|]. simpl. done.
    + apply map_lookup_filter_None. by left.
Qed.

Lemma merge_metas_snoc (l : list Meta) (m : Meta) :
  merge_metas (l ++ [m]) = public_items m ∪ merge_metas l.
Proof. unfold merge_metas. by rewrite fold_left_app. Qed.

Lemma metas_of_eq (cls : pyclass) :
  metas_of cls = reverse (cls_subs cls ++ [base_Meta (cls_base cls)]).
Proof.
  unfold metas_of, class_mro. f_equal.
  generalize (base_Meta (cls_base cls)). intros b.
  induction (cls_subs cls) as [|m l IH]; simpl; [done|]. by rewrite <- IH.
Qed.

Lemma merge_metas_reverse_lookup (l : list Meta) (k : string) :
  merge_metas (reverse l) !! k
  = if PyStr.startswith "_" k then None else head (omap (λ m : Meta, m !! k) l).
Proof.
  induction l as [|m l IH].
  - simpl. unfold merge_metas. simpl. rewrite lookup_empty. by destruct (PyStr.startswith _ _).
  - rewrite reverse_cons, merge_metas_snoc, lookup_union, IH, public_items_lookup.
    simpl. destruct (PyStr.startswith "_" k); [done|].
    destruct (m !! k); simpl; [|by rewrite (left_id None _)].
    by destruct (head _).
Qed.

Lemma take_kwarg_fold (keys : list string) (final_meta kwargs : Meta) (k : string) :
  let r := fold_left take_kwarg keys (final_meta, kwargs) in
  r.1 !! k = (if bool_decide (k ∈ keys) then
                match kwargs !! k with Some v => Some v | None => final_meta !! k end
              else final_meta !! k)
  ∧ r.2 !! k = (if bool_decide (k ∈ keys) then None else kwargs !! k).
Proof.
  revert final_meta kwargs. induction keys as [|a keys IH]; intros fm kw; simpl.
  - done.
  - specialize (IH (take_kwarg (fm, kw) a).1 (take_kwarg (fm, kw) a).2).
    rewrite <- surjective_pairing in IH. simpl in IH. destruct IH as [IH1 IH2].
    rewrite IH1, IH2. clear IH1 IH2.
    unfold take_kwarg.
    destruct (decide (k = a)) as [->|Hne].
    + rewrite (bool_decide_eq_true_2 (a ∈ a :: keys)) by set_solver.
      destruct (kw !! a) as [v|] eqn:Ha; simpl.
      * rewrite lookup_delete_eq, lookup_insert_eq. by destruct (bool_decide _).
      * rewrite Ha. by destruct (bool_decide _).
    + assert (bool_decide (k ∈ a :: keys) = bool_decide (k ∈ keys)) as ->.
      { apply bool_decide_ext. set_solver. }
      destruct (kw !! a) as [v|] eqn:Ha; simpl; [|done].
      rewrite lookup_delete_ne, lookup_insert_ne; done.
Qed.

Lemma apply_kwargs_lookup (final_meta kwargs : Meta) (k : string) :
  (apply_kwargs final_meta kwargs).1 !! k
  = match final_meta !! k with
    | Some d => Some (default d (kwargs !! k))
    | None => None
    end
  ∧ (apply_kwargs final_meta kwargs).2 !! k
    = match final_meta !! k with Some _ => None | None => kwargs !! k end.
Proof.
  unfold apply_kwargs.
  pose proof (take_kwarg_fold (map_to_list final_meta).*1 final_meta kwargs k) as [H1 H2].
  simpl in H1, H2. rewrite H1, H2. clear H1 H2.
  destruct (final_meta !! k) as [d|] eqn:L.
  - rewrite bool_decide_eq_true_2.
    + by destruct (kwargs !! k).
    + apply list_elem_of_fmap. exists (k, d). split; [done|]. by apply elem_of_map_to_list.
  - rewrite bool_decide_eq_false_2; [done|].
    intros [[k' d] [-> Hin]]%list_elem_of_fmap. apply elem_of_map_to_list in Hin. simpl in *. congruence.
Qed.

(** C7: the settings of a node are the declared fragments merged from the
    most distant ancestor to the class itself, so that for every key the most
    derived declaration wins, keys that begin with an underscore left out;
    a constructor keyword replaces the default of a declared key; a keyword
    whose key no fragment declares is not consumed and goes on to the next
    [__init__] of the chain. *)
Theorem MetaMixin_init_settings (super_init : list pyval → Meta → M unit)
    (cls : pyclass) (args : list pyval) (kwargs : Meta) :
  let declared := (cls_subs cls ++ [base_Meta (cls_base cls)])%list in
  let defaults := merge_metas (metas_of cls) in
  (∀ k, defaults !! k
        = if PyStr.startswith "_" k then None
          else head (omap (λ m : Meta, m !! k) declared))
  ∧ ∃ meta rest : Meta,
      (∀ k, meta !! k = match defaults !! k with
                        | Some d => Some (default d (kwargs !! k))
                        | None => None
                        end)
      ∧ (∀ k, rest !! k = match defaults !! k with
                          | Some _ => None
                          | None => kwargs !! k
                          end)
      ∧ ∀ w, MetaMixin_init super_init cls args kwargs w
             = bind (super_init args rest) (λ _, ret meta) w.
Proof.
  intros declared defaults. split.
  - intros k. unfold defaults. rewrite metas_of_eq. apply merge_metas_reverse_lookup.
  - exists (apply_kwargs defaults kwargs).1, (apply_kwargs defaults kwargs).2.
    split; [|split].
    + intros k. apply apply_kwargs_lookup.
    + intros k. apply apply_kwargs_lookup.
    + intros w. unfold MetaMixin_init. fold defaults.
      by destruct (apply_kwargs defaults kwargs).
Qed.

Lemma defaults_public (cls : pyclass) (k : string) (v : pyval) :
  merge_metas (metas_of cls) !! k = Some v → PyStr.startswith "_" k = false.
Proof.
  rewrite metas_of_eq, merge_metas_reverse_lookup.
  by destruct (PyStr.startswith "_" k).
Qed.

Lemma head_omap_snoc {A B} (g : A → option B) (l : list A) (a : A) :
  is_Some (g a) → is_Some (head (omap g (l ++ [a]))).
Proof.
  intros Ha. induction l as [|x l IH]; simpl.
  - destruct (g a); [simpl; eauto|by destruct Ha].
  - destruct (g x); simpl; eauto.
Qed.

Lemma defaults_declare_base (cls : pyclass) (k : string) :
  k ∈ ["base_url"; "format"; "authentication"] →
  is_Some (merge_metas (metas_of cls) !! k).
Proof.
  intros Hk. rewrite metas_of_eq, merge_metas_reverse_lookup.
  assert (PyStr.startswith "_" k = false) as ->.
  { repeat (apply elem_of_cons in Hk as [->|Hk]; [done|]). by apply elem_of_nil in Hk. }
  apply head_omap_snoc.
  repeat (apply elem_of_cons in Hk as [->|Hk]; [by destruct (cls_base cls); vm_compute; eauto|]).
  by apply elem_of_nil in Hk.
Qed.

Lemma apply_kwargs_declared (defaults kwargs : Meta) :
  dom kwargs ⊆ dom defaults →
  (apply_kwargs defaults kwargs).1 = kwargs ∪ defaults
  ∧ (apply_kwargs defaults kwargs).2 = ∅.
Proof.
  intros Hsub. split; apply map_eq; intros k;
    destruct (apply_kwargs_lookup defaults kwargs k) as [H1 H2].
  - rewrite H1, lookup_union.
    destruct (defaults !! k) as [d|] eqn:Hd, (kwargs !! k) as [v|] eqn:Hv; try done.
    assert (k ∈ dom defaults) as Hin by (apply Hsub, elem_of_dom; eauto).
    apply elem_of_dom in Hin as [? ?]. congruence.
  - rewrite H2, lookup_empty.
    destruct (defaults !! k) as [d|] eqn:Hd; [done|].
    destruct (kwargs !! k) as [v|] eqn:Hv; [|done].
    assert (k ∈ dom defaults) as Hin by (apply Hsub, elem_of_dom; eauto).
    apply elem_of_dom in Hin as [? ?]. congruence.
Qed.

Lemma apply_kwargs_undeclared (defaults kwargs : Meta) :
  ¬ dom kwargs ⊆ dom defaults → (apply_kwargs defaults kwargs).2 ≠ ∅.
Proof.
  intros Hsub Hempty. apply Hsub. intros k [v Hv]%elem_of_dom.
  destruct (apply_kwargs_lookup defaults kwargs k) as [_ H2].
  rewrite Hempty, lookup_empty in H2.
  destruct (defaults !! k) as [d|] eqn:Hd; [apply elem_of_dom; eauto|congruence].
Qed.

Lemma MetaMixin_init_declared (cls : pyclass) (kwargs : Meta) (w : world) :
  dom kwargs ⊆ dom (merge_metas (metas_of cls)) →
  MetaMixin_init object_init cls [] kwargs w
  = (Ok (kwargs ∪ merge_metas (metas_of cls)), w).
Proof.
  intros Hsub. unfold MetaMixin_init.
  destruct (apply_kwargs_declared _ _ Hsub) as [H1 H2].
  destruct (apply_kwargs _ kwargs) as [meta rest]. simpl in *. subst.
  unfold bind, object_init, ret. by rewrite bool_decide_eq_true_2.
Qed.

Lemma MetaMixin_init_undeclared (cls : pyclass) (kwargs : Meta) (w : world) :
  ¬ dom kwargs ⊆ dom (merge_metas (metas_of cls)) →
  MetaMixin_init object_init cls [] kwargs w
  = (Raise (TypeError "object.__init__() takes no parameters"), w).
Proof.
  intros Hsub. unfold MetaMixin_init.
  pose proof (apply_kwargs_undeclared _ _ Hsub) as H2.
  destruct (apply_kwargs _ kwargs) as [meta rest]. simpl in *.
  unfold bind, object_init, raise. rewrite bool_decide_eq_false_2; [done|].
  by intros [_ ?].
Qed.


Lemma make_client_eq (meta : Meta) (a : pyval) (w : world) :
  meta !! "authentication" = Some a →
  make_client meta w = (client_of a, w).
Proof.
  intros Ha. unfold make_client, meta_attr, bind, ret. rewrite Ha.
  destruct a; simpl; try done.
Qed.

Lemma Resource_init_run (cls : pyclass) (kwargs : Meta) (w : world)
    (a : pyval) (client : HttpClient) :
  dom kwargs ⊆ dom (merge_metas (metas_of cls)) →
  (kwargs ∪ merge_metas (metas_of cls)) !! "authentication" = Some a →
  client_of a = Ok client →
  Resource_init cls [] kwargs w
  = (Ok (length (heap w)),
     mkWorld (heap w ++ [mkResource cls (kwargs ∪ merge_metas (metas_of cls)) client])
             (trace w)).
Proof.
  intros Hsub Ha Hc. unfold Resource_init, bind.
  rewrite (MetaMixin_init_declared cls kwargs w Hsub).
  rewrite (make_client_eq _ _ _ Ha), Hc. done.
Qed.

Lemma public_items_id (m : Meta) :
  (∀ k v, m !! k = Some v → PyStr.startswith "_" k = false) → public_items m = m.
Proof.
  intros H. apply map_eq. intros k. rewrite public_items_lookup.
  destruct (m !! k) as [v|] eqn:Hk.
  - by rewrite (H k v Hk).
  - by destruct (PyStr.startswith "_" k).
Qed.

Lemma wf_node_public (o : ResourceObj) : wf_node o → public_items (res_meta o) = res_meta o.
Proof.
  intros [Hdom _]. apply public_items_id. intros k v Hk.
  assert (k ∈ dom (merge_metas (metas_of (res_class o)))) as [d Hd]%elem_of_dom.
  { rewrite <- Hdom. apply elem_of_dom. eauto. }
  by eapply defaults_public.
Qed.

Lemma wf_node_declares (o : ResourceObj) (k : string) :
  wf_node o → k ∈ ["base_url"; "format"; "authentication"] → k ∈ dom (res_meta o).
Proof.
  intros [Hdom _] Hk. rewrite Hdom. apply elem_of_dom. by apply defaults_declare_base.
Qed.

(** Every node the constructor returns is well formed. *)
Lemma Resource_init_wf (cls : pyclass) (args : list pyval) (kwargs : Meta)
    (w w' : world) (a : nat) :
  Resource_init cls args kwargs w = (Ok a, w') →
  ∃ o, a = length (heap w) ∧ heap w' = heap w ++ [o] ∧ trace w' = trace w
       ∧ res_class o = cls ∧ wf_node o.
Proof.
  unfold Resource_init, MetaMixin_init.
  pose proof (λ k, proj1 (apply_kwargs_lookup (merge_metas (metas_of cls)) kwargs k)) as Hm.
  destruct (apply_kwargs _ kwargs) as [meta rest]. simpl in Hm.
  unfold bind, object_init.
  case_bool_decide; [|intros [=]]. unfold ret.
  destruct (meta !! "authentication") as [au|] eqn:Ha.
  2: { unfold make_client, meta_attr, bind, raise. rewrite Ha. intros [=]. }
  rewrite (make_client_eq _ _ _ Ha).
  destruct (client_of au) as [client|e] eqn:Hc; [|intros [=]].
  unfold alloc. intros [= <- <-]. eexists. repeat (split; [done|]). split.
  - simpl. apply set_eq. intros k. rewrite !elem_of_dom, Hm.
    destruct (merge_metas (metas_of cls) !! k); split; intros [? ?]; eauto; done.
  - simpl. destruct au; try done; eauto.
Qed.

(** What [__call__] returns: the node itself, or a fresh well-formed node. *)
Lemma Resource_call_run (self : nat) (id format url_overide : pyval)
    (w : world) (o : ResourceObj) :
  heap w !! self = Some o → wf_node o →
  (id = PNone ∧ format = PNone ∧ url_overide = PNone →
   Resource_call self id format url_overide w = (Ok self, w))
  ∧ (¬ (id = PNone ∧ format = PNone ∧ url_overide = PNone) →
     ∀ joined,
       (id ≠ PNone →
        ∃ base, res_meta o !! "base_url" = Some base ∧ url_join base [id] = Ok joined) →
       ∃ o',
         Resource_call self id format url_overide w
         = (Ok (length (heap w)), mkWorld (heap w ++ [o']) (trace w))
         ∧ self ≠ length (heap w)
         ∧ res_class o' = res_class o ∧ wf_node o'
         ∧ res_meta o' !! "base_url"
           = (if decide (url_overide ≠ PNone) then Some url_overide
              else if decide (id ≠ PNone) then Some (PStr joined)
              else res_meta o !! "base_url")
         ∧ res_meta o' !! "format"
           = (if decide (format ≠ PNone) then Some format else res_meta o !! "format")
         ∧ ∀ k, k ≠ "base_url" → k ≠ "format" → res_meta o' !! k = res_meta o !! k).
Proof.
  intros Ho Hwf. split.
  - intros Hnone. unfold Resource_call. by rewrite bool_decide_eq_true_2.
  - intros Hsome joined Hjoin.
    set (kw1 := if bool_decide (id ≠ PNone)
                then <["base_url" := PStr joined]> (res_meta o) else res_meta o).
    set (kw2 := if bool_decide (format ≠ PNone) then <["format" := format]> kw1 else kw1).
    set (kw3 := if bool_decide (url_overide ≠ PNone)
                then <["base_url" := url_overide]> kw2 else kw2).
    assert (Hdom : dom kw3 = dom (res_meta o)).
    { pose proof (wf_node_declares o "base_url" Hwf ltac:(set_solver)).
      pose proof (wf_node_declares o "format" Hwf ltac:(set_solver)).
      unfold kw3, kw2, kw1. repeat case_bool_decide; rewrite ?dom_insert_L; set_solver. }
    assert (Hau : kw3 !! "authentication" = res_meta o !! "authentication").
    { unfold kw3, kw2, kw1. repeat case_bool_decide; by simplify_map_eq. }
    destruct Hwf as [Hwfdom Hwfau].
    assert (Hunion : kw3 ∪ merge_metas (metas_of (res_class o)) = kw3).
    { apply map_eq. intros k. rewrite lookup_union.
      destruct (kw3 !! k) as [v|] eqn:Hk;
        [by destruct (merge_metas (metas_of (res_class o)) !! k)|].
      apply not_elem_of_dom in Hk. rewrite Hdom, Hwfdom in Hk.
      apply not_elem_of_dom in Hk. by rewrite Hk. }
    assert (∃ a client, kw3 !! "authentication" = Some a ∧ client_of a = Ok client)
      as (a & client & Ha & Hc).
    { rewrite Hau. destruct Hwfau as [->|[fields ->]]; eauto. }
    assert (Hinit : Resource_init (res_class o) [] kw3 w
                    = (Ok (length (heap w)),
                       mkWorld (heap w ++ [mkResource (res_class o) kw3 client]) (trace w))).
    { rewrite (Resource_init_run (res_class o) kw3 w a client).
      * by rewrite Hunion.
      * rewrite Hdom, Hwfdom. done.
      * by rewrite Hunion.
      * done. }
    exists (mkResource (res_class o) kw3 client).
    split; [|split; [|split; [|split; [|split; [|split]]]]].
    + unfold Resource_call. rewrite bool_decide_eq_false_2 by done.
      rewrite (bind_ok _ _ _ _ _ (deref_ok _ _ _ Ho)).
      rewrite (wf_node_public o (conj Hwfdom Hwfau)).
      assert ((if bool_decide (id ≠ PNone)
               then base <- meta_attr (res_meta o) "base_url";;
                    url <- lift (url_join base [id]);;
                    ret (<["base_url" := PStr url]> (res_meta o))
               else ret (res_meta o)) w = (Ok kw1, w)) as Hstep.
      { unfold kw1. case_bool_decide as Hid.
        - destruct (Hjoin Hid) as (base & Hb & Hj).
          unfold meta_attr, bind, lift, ret. rewrite Hb, Hj.
          done.
        - done. }
      rewrite (bind_ok _ _ _ _ _ Hstep).
      exact Hinit.
    + apply lookup_lt_Some in Ho. lia.
    + done.
    + apply Resource_init_wf in Hinit as (o' & _ & Hheap & _ & _ & Hwf').
      simpl in Hheap. apply app_inv_head in Hheap. by injection Hheap as ->.
    + simpl. unfold kw3, kw2, kw1.
      repeat case_bool_decide; repeat case_decide; try done; by simplify_map_eq.
    + simpl. unfold kw3, kw2, kw1.
      repeat case_bool_decide; repeat case_decide; try done; by simplify_map_eq.
    + intros k Hk1 Hk2. simpl. unfold kw3, kw2, kw1.
      repeat case_bool_decide; by simplify_map_eq.
Qed.

(** C5: a call with [id], [format] and the URL override all [None] returns
    the very node it was made on, at the same address and in the same world;
    any other call returns a node at a fresh address, of the same class, whose
    [base_url] is the override when one is given, else [url_join(base_url, id)]
    when an id is given, whose [format] is the given one, and whose other
    settings are those of the node.  (The source spells the third parameter
    [url_overide].) *)
Theorem call_identity_or_new_node (self : nat) (id format url_overide : pyval)
    (w : world) (o : ResourceObj) :
  heap w !! self = Some o → wf_node o →
  (id = PNone ∧ format = PNone ∧ url_overide = PNone →
   Resource_call self id format url_overide w = (Ok self, w))
  ∧ (¬ (id = PNone ∧ format = PNone ∧ url_overide = PNone) →
     ∀ joined,
       (id ≠ PNone →
        ∃ base, res_meta o !! "base_url" = Some base ∧ url_join base [id] = Ok joined) →
       ∃ o',
         Resource_call self id format url_overide w
         = (Ok (length (heap w)), mkWorld (heap w ++ [o']) (trace w))
         ∧ self ≠ length (heap w)
         ∧ res_class o' = res_class o
         ∧ res_meta o' !! "base_url"
           = (if decide (url_overide ≠ PNone) then Some url_overide
              else if decide (id ≠ PNone) then Some (PStr joined)
              else res_meta o !! "base_url")
         ∧ res_meta o' !! "format"
           = (if decide (format ≠ PNone) then Some format else res_meta o !! "format")
         ∧ ∀ k, k ≠ "base_url" → k ≠ "format" → res_meta o' !! k = res_meta o !! k).
Proof.
  intros Ho Hwf. destruct (Resource_call_run self id format url_overide w o Ho Hwf)
    as [Hself Hnew].
  split; [exact Hself|].
  intros Hsome joined Hjoin.
  destruct (Hnew Hsome joined Hjoin) as (o' & H1 & H2 & H3 & _ & H4 & H5 & H6).
  exists o'. by repeat split.
Qed.

(** C8 (amended): with every keyword a declared setting, [API(...)] raises
    [ImproperlyConfigured] exactly when the [base_url] that results from the
    defaults and the keywords is [None]; any other value, the empty string
    included, is accepted and the root is built with the merged settings. *)
Theorem API_init_requires_base_url (cls : pyclass) (base_url : pyval)
    (kwargs : Meta) (w : world) :
  let kw := if bool_decide (base_url ≠ PNone)
            then <["base_url" := base_url]> kwargs else kwargs in
  let defaults := merge_metas (metas_of cls) in
  let meta := kw ∪ defaults in
  ((∃ msg w', API_init cls base_url kwargs w = (Raise (ImproperlyConfigured msg), w'))
   ↔ dom kw ⊆ dom defaults ∧ meta !! "base_url" = Some PNone)
  ∧ (dom kw ⊆ dom defaults →
     ∀ b a client,
       meta !! "base_url" = Some b → b ≠ PNone →
       meta !! "authentication" = Some a → client_of a = Ok client →
       API_init cls base_url kwargs w = (Ok (mkAPI cls meta client), w)).
Proof.
  intros kw defaults meta.
  assert (Hrun : dom kw ⊆ dom defaults →
            ∀ b a, meta !! "base_url" = Some b → meta !! "authentication" = Some a →
            API_init cls base_url kwargs w
            = if bool_decide (b = PNone)
              then (Raise (ImproperlyConfigured "base_url is required"), w)
              else match client_of a with
                   | Ok client => (Ok (mkAPI cls meta client), w)
                   | Raise e => (Raise e, w)
                   end).
  { intros Hsub b a Hb Ha. unfold API_init. fold kw.
    rewrite (bind_ok _ _ _ _ _ (MetaMixin_init_declared cls kw w Hsub)).
    fold defaults. fold meta.
    unfold meta_attr at 1. rewrite Hb.
    unfold bind at 1, ret at 1. case_bool_decide; [done|].
    unfold bind. rewrite (make_client_eq _ _ _ Ha).
    by destruct (client_of a). }
  assert (Hb : is_Some (meta !! "base_url")).
  { unfold meta. rewrite lookup_union.
    destruct (defaults_declare_base cls "base_url" ltac:(set_solver)) as [d Hd].
    fold defaults in Hd. rewrite Hd. destruct (kw !! "base_url"); simpl; eauto. }
  assert (Hau : is_Some (meta !! "authentication")).
  { unfold meta. rewrite lookup_union.
    destruct (defaults_declare_base cls "authentication" ltac:(set_solver)) as [d Hd].
    fold defaults in Hd. rewrite Hd. destruct (kw !! "authentication"); simpl; eauto. }
  destruct Hb as [b Hb], Hau as [a Ha].
  split; [split|].
  - intros (msg & w' & Hraise).
    destruct (decide (dom kw ⊆ dom defaults)) as [Hsub|Hsub].
    + split; [done|]. rewrite (Hrun Hsub b a Hb Ha) in Hraise.
      case_bool_decide; [by subst|].
      destruct a; simpl in Hraise; inversion Hraise.
    + exfalso. unfold API_init in Hraise. fold kw in Hraise.
      rewrite (bind_raise _ _ _ _ _ (MetaMixin_init_undeclared cls kw w Hsub)) in Hraise.
      inversion Hraise.
  - intros [Hsub Hnone]. rewrite Hb in Hnone. injection Hnone as ->.
    rewrite (Hrun Hsub PNone a Hb Ha). rewrite bool_decide_eq_true_2 by done. eauto.
  - intros Hsub b' a' client Hb' Hne Ha' Hc.
    rewrite (Hrun Hsub b' a' Hb' Ha'). rewrite bool_decide_eq_false_2 by done.
    by rewrite Hc.
Qed.

(** ** Navigation *)

Lemma url_join_split (u : string) (r : SplitResult) (args : list pyval) :
  urlsplit u = Some r →
  url_join (PStr u) args
  = Ok (urlunsplit (mkSplit (scheme r) (netloc r)
                      (posixpath.join (path r) (py_str <$> args)) (query r) (fragment r))).
Proof. intros H. unfold url_join. by rewrite H. Qed.

Lemma urlunsplit_rooted (sc nl p q f : string) :
  sc ≠ "" → nl ≠ "" →
  urlunsplit (mkSplit sc nl (rooted p) q f) = urlunsplit (mkSplit sc nl p q f).
Proof. intros Hsc Hnl. by rewrite !urlunsplit_abs, rooted_idem. Qed.

Lemma wf_split_path (sc nl p p' q f : string) :
  wf_split (mkSplit sc nl p q f) → no_qf p' → wf_split (mkSplit sc nl p' q f).
Proof. intros [] [? ?]. by constructor. Qed.

(** Joining onto a URL that [urlunsplit] wrote. *)
Lemma url_join_written (sc nl p q f : string) (args : list pyval) :
  wf_split (mkSplit sc nl p q f) →
  url_join (PStr (urlunsplit (mkSplit sc nl p q f))) args
  = Ok (urlunsplit (mkSplit sc nl (posixpath.join (rooted p) (py_str <$> args)) q f)).
Proof.
  intros Hwf. by rewrite (url_join_split _ _ args (urlsplit_urlunsplit sc nl p q f Hwf)).
Qed.

Lemma getattr_run (self : nat) (item : string) (w : world) (o : ResourceObj)
    (base : pyval) (joined : string) :
  heap w !! self = Some o → wf_node o →
  PyStr.startswith "_" item = false → item ∉ Resource_attributes →
  res_meta o !! "base_url" = Some base → url_join base [PStr item] = Ok joined →
  ∃ o', Resource_getattr self item w
        = (Ok (Node (length (heap w))), mkWorld (heap w ++ [o']) (trace w))
        ∧ wf_node o' ∧ res_meta o' !! "base_url" = Some (PStr joined).
Proof.
  intros Ho Hwf Hitem Hmember Hb Hj.
  pose proof (wf_node_declares o "format" Hwf ltac:(set_solver)) as Hfmt.
  apply elem_of_dom in Hfmt as [fmt Hf].
  destruct Hwf as [Hdom Hau].
  assert (∃ a client, res_meta o !! "authentication" = Some a ∧ client_of a = Ok client)
    as (a & client & Ha & Hc).
  { destruct Hau as [->|[fields ->]]; eauto. }
  set (kw := ({[ "base_url" := PStr joined; "format" := fmt;
                 "authentication" := a ]} : Meta)).
  assert (Hsub : dom kw ⊆ dom (merge_metas (metas_of Resource_class))).
  { intros k Hk. apply elem_of_dom, defaults_declare_base.
    unfold kw in Hk. rewrite !dom_insert_L, ?dom_singleton_L, ?dom_empty_L in Hk. set_solver. }
  assert (Hinit : Resource_init Resource_class [] kw w
                  = (Ok (length (heap w)),
                     mkWorld (heap w ++ [mkResource Resource_class
                                           (kw ∪ merge_metas (metas_of Resource_class))
                                           client]) (trace w))).
  { apply (Resource_init_run Resource_class kw w a client Hsub); [|done].
    apply lookup_union_Some_l. unfold kw. by simplify_map_eq. }
  eexists. split; [|split].
  - unfold Resource_getattr.
    rewrite (bind_ok _ _ _ _ _ (deref_ok _ _ _ Ho)).
    rewrite bool_decide_eq_false_2 by done.
    unfold ResourceAttributesMixin_getattr. rewrite Hitem.
    unfold meta_attr. rewrite Hb, Hf, Ha. unfold bind, ret, lift. rewrite Hj.
    fold kw. by rewrite Hinit.
  - apply Resource_init_wf in Hinit as (o' & _ & Hheap & _ & _ & Hwf').
    simpl in Hheap. apply app_inv_head in Hheap. by injection Hheap as ->.
  - cbn [res_meta]. apply lookup_union_Some_l. unfold kw. apply lookup_insert_eq.
Qed.

(** One navigation step joins the segment onto the address of the node. *)
Lemma navigate_step_run (self : nat) (st : nav_step) (w : world) (o : ResourceObj)
    (base : pyval) (joined : string) :
  heap w !! self = Some o → wf_node o → step_ok st →
  res_meta o !! "base_url" = Some base →
  url_join base [nav_segment st] = Ok joined →
  ∃ o', navigate_step self st w
        = (Ok (Node (length (heap w))), mkWorld (heap w ++ [o']) (trace w))
        ∧ wf_node o' ∧ res_meta o' !! "base_url" = Some (PStr joined).
Proof.
  intros Ho Hwf Hst Hb Hj. destruct st as [item|id]; simpl in *.
  - destruct Hst as (Hitem & Hmember & _). by eapply getattr_run.
  - destruct Hst as [Hid _].
    destruct (Resource_call_run self id PNone PNone w o Ho Hwf) as [_ Hnew].
    destruct (Hnew ltac:(by intros [? _]) joined ltac:(eauto))
      as (o' & Hcall & _ & _ & Hwf' & Hbase & _).
    exists o'. split; [by rewrite (bind_ok _ _ _ _ _ Hcall)|]. split; [done|].
    rewrite Hbase. rewrite decide_False by (by intros ?). by rewrite decide_True.
Qed.


Lemma step_ok_no_qf (steps : list nav_step) :
  Forall step_ok steps → Forall no_qf (segments steps).
Proof.
  induction 1 as [|st steps Hst _ IH]; constructor; [|done].
  destruct st; simpl in *; tauto.
Qed.

(** From a node whose address [urlunsplit] wrote, the steps lead to the node
    whose address has all the segments joined onto the path. *)
Lemma navigate_written (sc nl q f : string) (steps : list nav_step) :
  ∀ (self : nat) (w : world) (o : ResourceObj) (p : string),
    wf_split (mkSplit sc nl p q f) →
    heap w !! self = Some o → wf_node o →
    res_meta o !! "base_url" = Some (PStr (urlunsplit (mkSplit sc nl p q f))) →
    Forall step_ok steps →
    ∃ a w' o',
      navigate self steps w = (Ok (Reached a), w') ∧ heap w' !! a = Some o' ∧ wf_node o'
      ∧ trace w' = trace w
      ∧ res_meta o' !! "base_url"
        = Some (PStr (urlunsplit
                        (mkSplit sc nl (posixpath.join (rooted p) (segments steps)) q f))).
Proof.
  induction steps as [|st steps IH]; intros self w o p Hwf Ho Hnode Hb Hsteps.
  - exists self, w, o. simpl. repeat (split; [done|]).
    unfold posixpath.join. simpl. rewrite urlunsplit_rooted; [done|apply Hwf..].
  - inversion Hsteps as [|? ? Hst Hsteps']; subst.
    set (p1 := posixpath.join_step (rooted p) (py_str (nav_segment st))).
    assert (Hp1 : no_qf p1).
    { apply no_qf_join_step.
      - apply no_qf_rooted. split; apply Hwf.
      - destruct st; simpl in *; tauto. }
    assert (Hj : url_join (PStr (urlunsplit (mkSplit sc nl p q f))) [nav_segment st]
                 = Ok (urlunsplit (mkSplit sc nl p1 q f))).
    { by rewrite (url_join_written sc nl p q f [nav_segment st] Hwf). }
    destruct (navigate_step_run self st w o _ _ Ho Hnode Hst Hb Hj)
      as (o1 & Hstep & Hnode1 & Hb1).
    set (w1 := mkWorld (heap w ++ [o1]) (trace w)) in *.
    assert (Ho1 : heap w1 !! length (heap w) = Some o1).
    { unfold w1. simpl. by rewrite lookup_app_r, Nat.sub_diag by lia. }
    destruct (IH (length (heap w)) w1 o1 p1 (wf_split_path _ _ _ _ _ _ Hwf Hp1)
                Ho1 Hnode1 Hb1 Hsteps')
      as (a & w' & o' & Hnav & Ho' & Hnode' & Htr & Hb').
    exists a, w', o'. simpl. rewrite (bind_ok _ _ _ _ _ Hstep).
    repeat (split; [done|]). rewrite Hb'. do 2 f_equal.
    change (posixpath.join (rooted p) (segments (st :: steps)))
      with (posixpath.join p1 (segments steps)).
    rewrite <- (urlunsplit_rooted sc nl (posixpath.join (rooted p1) (segments steps)))
      by apply Hwf.
    rewrite join_rooted. apply urlunsplit_rooted; apply Hwf.
Qed.

(** ** Doubled separators *)

Lemma startswith_slash_cons (y : ascii) (b : string) :
  PyStr.startswith "/" (String y b) = Ascii.eqb y "/".
Proof.
  unfold PyStr.startswith.
  change (String.prefix "/" (String y b))
    with (if Ascii.ascii_dec "/" y then String.prefix "" b else false).
  destruct (Ascii.ascii_dec "/" y) as [<-|Hne].
  - by destruct b.
  - symmetry. apply Ascii.eqb_neq. congruence.
Qed.

Lemma double_slash_cons (x : ascii) (b : string) :
  double_slash (String x b)
  = (Ascii.eqb x "/" && PyStr.startswith "/" b) || double_slash b.
Proof.
  destruct b as [|y b]; [by rewrite andb_false_r|].
  by rewrite startswith_slash_cons.
Qed.

Lemma double_slash_app (a b : string) :
  double_slash (a +:+ b)
  = double_slash a || double_slash b
    || (PyStr.endswith "/" a && PyStr.startswith "/" b).
Proof.
  induction a as [|x a IH]; [by rewrite append_nil_l, orb_false_r|].
  rewrite append_cons, double_slash_cons, IH.
  destruct a as [|y a].
  - rewrite append_nil_l. simpl.
    by destruct (Ascii.eqb x "/"), (double_slash b), (PyStr.startswith "/" b).
  - rewrite append_cons, !startswith_slash_cons, (double_slash_cons x).
    rewrite startswith_slash_cons.
    change (PyStr.endswith "/" (String x (String y a)))
      with (PyStr.endswith "/" (String y a)).
    by destruct (Ascii.eqb x "/" && Ascii.eqb y "/"), (double_slash (String y a)),
      (double_slash b).
Qed.

Lemma double_slash_join_step (p s : string) :
  double_slash p = false → double_slash s = false →
  double_slash (posixpath.join_step p s) = false.
Proof.
  intros Hp Hs. unfold posixpath.join_step.
  destruct (PyStr.startswith "/" s) eqn:Hstart; [done|].
  destruct (String.eqb p "" || PyStr.endswith "/" p) eqn:Hend.
  - by rewrite double_slash_app, Hp, Hs, Hstart, andb_false_r.
  - apply orb_false_elim in Hend as [_ Hend].
    rewrite double_slash_app, Hp, Hend.
    change ("/" +:+ s) with (String "/" s).
    by rewrite double_slash_cons, Hstart, Hs.
Qed.

Lemma double_slash_join (ss : list string) (p : string) :
  double_slash p = false → Forall (λ s, double_slash s = false) ss →
  double_slash (posixpath.join p ss) = false.
Proof.
  unfold posixpath.join. revert p.
  induction ss as [|s ss IH]; intros p Hp Hss; [done|].
  inversion Hss; subst. simpl. apply IH; [|done]. by apply double_slash_join_step.
Qed.

Lemma double_slash_rooted (p : string) :
  double_slash p = false → double_slash (rooted p) = false.
Proof.
  intros Hp. destruct p as [|a p]; [done|]. rewrite rooted_cons.
  destruct (Ascii.eqb a "/") eqn:E; [done|].
  by rewrite double_slash_cons, startswith_slash_cons, E, Hp.
Qed.

(** C6 (amended): from a node whose [base_url] has a scheme and a host, a
    non-empty chain of steps ends at a node whose [base_url] is [url_join]
    of the first [base_url] with all the segments at once; scheme, host,
    query and fragment are those of the first URL, and the path has no two
    slashes in a row when neither the first path nor a segment has.  The
    steps are accesses to an attribute whose name does not begin with an
    underscore and is not one that normal lookup finds on a node ([get],
    [post], [put], [delete], [get_serializer], [Meta]), and calls with an
    id other than [None]; no segment, the name or [str] of the id, holds a
    question mark or a hash. *)
Theorem navigation_joins_segments (self : nat) (w : world) (o : ResourceObj)
    (u : string) (r : SplitResult) (steps : list nav_step) :
  heap w !! self = Some o → wf_node o →
  res_meta o !! "base_url" = Some (PStr u) →
  urlsplit u = Some r → scheme r ≠ "" → netloc r ≠ "" →
  steps ≠ [] → Forall step_ok steps →
  ∃ a w' o' joined r',
    navigate self steps w = (Ok (Reached a), w') ∧ heap w' !! a = Some o'
    ∧ res_meta o' !! "base_url" = Some (PStr joined)
    ∧ url_join (PStr u) (nav_segment <$> steps) = Ok joined
    ∧ urlsplit joined = Some r'
    ∧ scheme r' = scheme r ∧ netloc r' = netloc r
    ∧ query r' = query r ∧ fragment r' = fragment r
    ∧ (double_slash (path r) = false →
       Forall (λ st, double_slash (py_str (nav_segment st)) = false) steps →
       double_slash (path r') = false).
Proof.
  intros Ho Hnode Hb Hsplit Hsc Hnl Hne Hsteps.
  pose proof (urlsplit_wf u r Hsplit Hsc Hnl) as Hwf.
  destruct r as [sc nl p q f]. simpl in *.
  destruct steps as [|st steps]; [done|]. clear Hne.
  inversion Hsteps as [|? ? Hst Hsteps']; subst.
  set (p1 := posixpath.join_step p (py_str (nav_segment st))).
  assert (Hseg : no_qf (py_str (nav_segment st))).
  { destruct st; simpl in *; tauto. }
  assert (Hp1 : no_qf p1).
  { apply no_qf_join_step; [|done]. split; apply Hwf. }
  pose proof (wf_split_path _ _ _ _ _ _ Hwf Hp1) as Hwf1.
  assert (Hj : url_join (PStr u) [nav_segment st]
               = Ok (urlunsplit (mkSplit sc nl p1 q f))).
  { by rewrite (url_join_split u _ [nav_segment st] Hsplit). }
  destruct (navigate_step_run self st w o _ _ Ho Hnode Hst Hb Hj)
    as (o1 & Hstep & Hnode1 & Hb1).
  set (w1 := mkWorld (heap w ++ [o1]) (trace w)) in *.
  assert (Ho1 : heap w1 !! length (heap w) = Some o1).
  { unfold w1. simpl. by rewrite lookup_app_r, Nat.sub_diag by lia. }
  destruct (navigate_written sc nl q f steps (length (heap w)) w1 o1 p1 Hwf1
              Ho1 Hnode1 Hb1 Hsteps')
    as (a & w' & o' & Hnav & Ho' & Hnode' & Htr & Hb').
  set (pn := posixpath.join p (segments (st :: steps))).
  assert (Hpn : no_qf pn).
  { apply no_qf_join; [split; apply Hwf|]. by apply step_ok_no_qf. }
  assert (Heq : urlunsplit (mkSplit sc nl (posixpath.join (rooted p1) (segments steps)) q f)
                = urlunsplit (mkSplit sc nl pn q f)).
  { rewrite <- (urlunsplit_rooted sc nl (posixpath.join (rooted p1) (segments steps)))
      by apply Hwf.
    rewrite join_rooted. apply urlunsplit_rooted; apply Hwf. }
  exists a, w', o', (urlunsplit (mkSplit sc nl pn q f)), (mkSplit sc nl (rooted pn) q f).
  split; [|split; [|split; [|split; [|split]]]].
  - simpl. by rewrite (bind_ok _ _ _ _ _ Hstep).
  - done.
  - by rewrite Hb', Heq.
  - rewrite Hsplit. simpl. unfold pn, segments.
    by rewrite <- list_fmap_compose.
  - apply urlsplit_urlunsplit. by apply (wf_split_path _ _ _ _ _ _ Hwf).
  - simpl. repeat (split; [done|]). intros Hp Hss.
    apply double_slash_rooted, double_slash_join; [done|].
    unfold segments. by apply Forall_fmap.
Qed.

(** ** Verbs *)

Section VerbFacts.
Context {data : Type} {transport : Collaborators data}.

Lemma _request_cases (self : nat) (method : string) (kwargs : Meta) (w : world)
    (r : outcome (Response * string)) (w' : world) :
  _request self method kwargs w = (r, w') →
  (w' = w ∧ ∃ e, r = Raise e)
  ∨ ∃ o f s ct base url,
      heap w !! self = Some o ∧ res_meta o !! "format" = Some f
      ∧ Serializer f = Ok s ∧ get_content_type s = Ok ct
      ∧ res_meta o !! "base_url" = Some base ∧ with_query base kwargs url
      ∧ let rq := mkRequest url method (default PNone (kwargs !! "body"))
                    [("content-type", ct)] in
        w' = mkWorld (heap w) (trace w ++ [rq])
        ∧ r = dispatch url (http_request (res_http_client o) (trace w) rq).
Proof.
  unfold _request, bind, deref, get_serializer, meta_attr, lift, bind, ret, raise.
  destruct (heap w !! self) as [o|] eqn:Ho; [|intros [= <- <-]; left; eauto].
  destruct (res_meta o !! "format") as [f|] eqn:Hf; [|intros [= <- <-]; left; eauto].
  destruct (Serializer f) as [s|e] eqn:Hs; [|intros [= <- <-]; left; eauto].
  destruct (res_meta o !! "base_url") as [base|] eqn:Hb; [|intros [= <- <-]; left; eauto].
  unfold with_query.
  destruct (kwargs !! "body") as [body|] eqn:E; simpl;
    [|rewrite (delete_id kwargs "body" E)];
    [set (q := delete "body" kwargs)|set (q := kwargs)].
  all: destruct (decide (q = ∅)) as [Hq|Hq];
    [ rewrite bool_decide_eq_false_2 by (intros ?; done)
    | rewrite bool_decide_eq_true_2 by done;
      destruct base as [|u| | |]; try (intros [= <- <-]; left; eauto) ].
  all: destruct (get_content_type s) as [ct|e] eqn:Hct; [|intros [= <- <-]; left; eauto].
  all: unfold client_request; intros H; right.
  all: eexists o, f, s, ct, _, _; repeat (split; [eauto|]).
  all: try (rewrite decide_True by done; reflexivity).
  all: try (rewrite decide_False by done; eauto).
  all: destruct (http_request _ _ _) as [[resp content]|e] eqn:Hr; simpl in *;
    repeat case_bool_decide; inversion H; subst; rewrite ?Hr; simpl;
    repeat case_bool_decide; try done.
Qed.


Lemma _request_run (self : nat) (method : string) (kwargs : Meta) (w : world)
    (o : ResourceObj) (f : pyval) (s : SerializerObj data) (ct : string)
    (base url : pyval) :
  heap w !! self = Some o → res_meta o !! "format" = Some f →
  Serializer f = Ok s → get_content_type s = Ok ct →
  res_meta o !! "base_url" = Some base → with_query base kwargs url →
  let rq := mkRequest url method (default PNone (kwargs !! "body"))
              [("content-type", ct)] in
  _request self method kwargs w
  = (dispatch url (http_request (res_http_client o) (trace w) rq),
     mkWorld (heap w) (trace w ++ [rq])).
Proof.
  intros Ho Hf Hs Hct Hb Hq rq. subst rq.
  unfold _request, bind, deref, get_serializer, meta_attr, lift, bind, ret, raise.
  rewrite Ho, Hf, Hs, Hb. unfold with_query in Hq.
  destruct (kwargs !! "body") as [body|] eqn:E; simpl;
    [|rewrite (delete_id kwargs "body" E) in Hq];
    (destruct (decide _) as [Hd|Hd] in Hq;
     [ rewrite bool_decide_eq_false_2 by (intros ?; done); subst url
     | rewrite bool_decide_eq_true_2 by done; destruct Hq as (u & -> & ->) ]);
    rewrite Hct; unfold client_request; simpl;
    (destruct (http_request _ _ _) as [[resp content]|e]; simpl;
     repeat case_bool_decide; done).
Qed.

Lemma get_serializer_ok (o : ResourceObj) (f : pyval) (s : SerializerObj data) (w : world) :
  res_meta o !! "format" = Some f → Serializer f = Ok s →
  get_serializer o w = (Ok s, w).
Proof. unfold get_serializer, meta_attr, bind, ret, lift. by intros -> ->. Qed.


Arguments _request : simpl never.

Ltac early_exit :=
  let H := fresh in simpl; intros H; inversion H; subst; left; eauto.

Lemma call_kw_url_override (self : nat) (v : pyval) (w : world) :
  Resource_call_kw self {[ "url_override" := v ]} w
  = (Raise (TypeError "__call__() got an unexpected keyword argument 'url_override'"), w).
Proof.
  unfold Resource_call_kw. rewrite map_to_list_singleton.
  change ((("url_override", v) :: nil).*1) with ("url_override" :: nil).
  rewrite filter_cons_True; [done|].
  intros Hin. repeat (apply elem_of_cons in Hin as [Hin|Hin]; [discriminate|]).
  by apply elem_of_nil in Hin.
Qed.

Arguments Resource_call_kw : simpl never.

(** Whatever a verb does after its request leaves the world alone, and an
    exception of [_request] is the exception of the verb. *)
Lemma call_verb_cases (self : nat) (c : verb_call data) (w : world)
    (r : outcome (verb_result data)) (w' : world) :
  call_verb self c w = (r, w') →
  (w' = w ∧ ∃ e, r = Raise e)
  ∨ ∃ o f s kw r1,
      heap w !! self = Some o ∧ res_meta o !! "format" = Some f
      ∧ Serializer f = Ok s ∧ verb_request_kwargs s c = Some kw
      ∧ _request self (verb_method c) kw w = (r1, w')
      ∧ ∀ e, r1 = Raise e → r = Raise e.
Proof.
  destruct c as [kwargs|d kwargs|d kwargs|kwargs]; simpl;
    unfold Resource_get, Resource_post, Resource_put, Resource_delete,
      _request_with_body, deref, get_serializer, meta_attr, lift, bind, ret, raise.
  4: { destruct (_request self "DELETE" kwargs w) as [r1 w1] eqn:Hreq.
       pose proof Hreq as Hc. apply _request_cases in Hc as [[-> [e ->]]|Hc].
       - early_exit.
       - destruct Hc as (o & f & s & ct & base & url & Ho & Hf & Hs & _).
         intros H. right. exists o, f, s, kwargs, r1.
         destruct r1 as [[resp content]|e]; simpl in H;
           repeat case_bool_decide; inversion H; subst;
           repeat (split; [done|]); congruence. }
  all: destruct (heap w !! self) as [o|] eqn:Ho; [|early_exit].
  all: destruct (res_meta o !! "format") as [f|] eqn:Hf; [|early_exit].
  all: destruct (Serializer f) as [s|e] eqn:Hs; [|early_exit].
  2,3: destruct (dumps s d) as [body|e] eqn:Hd; [|early_exit].
  2,3: destruct (kwargs !! "body") as [b|] eqn:Hb;
    [ rewrite bool_decide_eq_true_2 by eauto; early_exit
    | rewrite bool_decide_eq_false_2 by (intros [? ?]; done) ].
  - destruct (_request self "GET" kwargs w) as [r1 w1] eqn:Hreq.
    intros H. right. exists o, f, s, kwargs, r1.
    destruct r1 as [[resp content]|e]; simpl in H;
      repeat case_bool_decide; try destruct (loads s content);
      inversion H; subst; repeat (split; [done|]); congruence.
  - destruct (_request self "POST" _ w) as [r1 w1] eqn:Hreq.
    intros H. right. exists o, f, s, (<["body" := PStr body]> kwargs), r1.
    simpl; rewrite ?Hb, ?Hd.
    destruct r1 as [[resp content]|e]; simpl in H;
      repeat case_bool_decide; try destruct (resp_headers resp !! "location");
      rewrite ?call_kw_url_override in H;
      inversion H; subst; repeat (split; [done|]); congruence.
  - destruct (_request self "PUT" _ w) as [r1 w1] eqn:Hreq.
    intros H. right. exists o, f, s, (<["body" := PStr body]> kwargs), r1.
    simpl; rewrite ?Hb, ?Hd.
    destruct r1 as [[resp content]|e]; simpl in H;
      repeat case_bool_decide; inversion H; subst;
      repeat (split; [done|]); congruence.
Qed.




(** C3: once the response of a [get] has passed the 4xx/5xx dispatch, status
    200 returns what the serializer of the node decodes from the content, any
    other status in 200..299 returns the content as it is, and any status
    outside 200..299 returns [None]. *)
Theorem get_after_dispatch (self : nat) (kwargs : Meta) (w w1 : world)
    (resp : Response) (content : string) :
  _request self "GET" kwargs w = (Ok (resp, content), w1) →
  ∃ o f s,
    heap w !! self = Some o ∧ res_meta o !! "format" = Some f ∧ Serializer f = Ok s
    ∧ Resource_get self kwargs w
      = (if bool_decide (status resp = 200)%Z then
           match loads s content with
           | Ok v => Ok (Decoded v)
           | Raise e => Raise e
           end
         else if bool_decide (200 ≤ status resp ≤ 299)%Z then Ok (Content content)
         else Ok Nothing,
         w1).
Proof.
  intros Hr. pose proof Hr as Hc.
  apply _request_cases in Hc as [[_ [e [=]]]|Hc].
  destruct Hc as (o & f & s & ct & base & url & Ho & Hf & Hs & _).
  exists o, f, s. repeat (split; [done|]).
  unfold Resource_get.
  rewrite (bind_ok _ _ _ _ _ (deref_ok _ _ _ Ho)).
  rewrite (bind_ok _ _ _ _ _ (get_serializer_ok _ _ _ _ Hf Hs)).
  rewrite (bind_ok _ _ _ _ _ Hr).
  unfold bind, lift, ret.
  repeat case_bool_decide; try lia; try done.
  by destruct (loads s content).
Qed.







(** C4 (amended): once the response of a [put] or [delete] has passed the
    4xx/5xx dispatch, every status in 200..299 returns [True] and every other
    status returns [False]; [put] sends the encoded data as the body, and
    [delete] sends the caller's [body] keyword when there is one and no body
    otherwise. *)
Theorem put_delete_after_dispatch (self : nat) (w w1 : world)
    (resp : Response) (content : string) :
  (∀ d kwargs o f s body,
     heap w !! self = Some o → res_meta o !! "format" = Some f →
     Serializer f = Ok s → dumps s d = Ok body → kwargs !! "body" = None →
     _request self "PUT" (<["body" := PStr body]> kwargs) w = (Ok (resp, content), w1) →
     Resource_put self d kwargs w = (Ok (bool_decide (200 ≤ status resp ≤ 299)%Z), w1)
     ∧ ∃ rq, trace w1 = (trace w ++ [rq])%list ∧ req_body rq = PStr body)
  ∧ (∀ kwargs,
       _request self "DELETE" kwargs w = (Ok (resp, content), w1) →
       Resource_delete self kwargs w = (Ok (bool_decide (200 ≤ status resp ≤ 299)%Z), w1)
       ∧ ∃ rq, trace w1 = (trace w ++ [rq])%list
               ∧ req_body rq = default PNone (kwargs !! "body")).
Proof.
  split.
  - intros d kwargs o f s body Ho Hf Hs Hd Hbody Hr. split.
    + unfold Resource_put, _request_with_body.
      rewrite (bind_ok _ _ _ _ _ (deref_ok _ _ _ Ho)).
      rewrite (bind_ok _ _ _ _ _ (get_serializer_ok _ _ _ _ Hf Hs)).
      rewrite (bind_ok _ _ _ _ _ (lift_ok _ _ _ Hd)).
      rewrite bool_decide_eq_false_2 by (rewrite Hbody; by intros [? ?]).
      rewrite (bind_ok _ _ _ _ _ Hr). unfold ret.
      by repeat case_bool_decide.
    + apply _request_cases in Hr as [[_ [e [=]]]|Hr].
      destruct Hr as (o' & f' & s' & ct & base & url & _ & _ & _ & _ & _ & _ & Hlet).
      cbv zeta in Hlet. destruct Hlet as [-> _].
      eexists. split; [done|]. simpl. by rewrite lookup_insert_eq.
  - intros kwargs Hr. split.
    + unfold Resource_delete. rewrite (bind_ok _ _ _ _ _ Hr). unfold ret.
      by repeat case_bool_decide.
    + apply _request_cases in Hr as [[_ [e [=]]]|Hr].
      destruct Hr as (o' & f' & s' & ct & base & url & _ & _ & _ & _ & _ & _ & Hlet).
      cbv zeta in Hlet. destruct Hlet as [-> _].
      eexists. split; [done|]. done.
Qed.

(** C1 (what the code does): when the answer to a [post] has status 201 and
    a location, the call of the node with the keyword [url_override] names no
    parameter of [__call__], whose third parameter is spelled
    [url_overide]: the [post] ends in a [TypeError], and the POST request is
    the only request sent. *)
Theorem post_created_raises_TypeError (self : nat) (d : data) (kwargs : Meta)
    (w : world) (o : ResourceObj) (f : pyval) (s : SerializerObj data)
    (ct body : string) (base url : pyval) (resp : Response)
    (content location : string) :
  heap w !! self = Some o → res_meta o !! "format" = Some f →
  Serializer f = Ok s → get_content_type s = Ok ct →
  res_meta o !! "base_url" = Some base →
  dumps s d = Ok body → kwargs !! "body" = None →
  with_query base kwargs url →
  let rq := mkRequest url "POST" (PStr body) [("content-type", ct)] in
  http_request (res_http_client o) (trace w) rq = Ok (resp, content) →
  status resp = 201%Z →
  resp_headers resp !! "location" = Some location →
  Resource_post self d kwargs w
  = (Raise (TypeError "__call__() got an unexpected keyword argument 'url_override'"),
     mkWorld (heap w) (trace w ++ [rq])).
Proof.
  intros Ho Hf Hs Hct Hb Hd Hbody Hq rq Hans Hst Hloc.
  assert (with_query base (<["body" := PStr body]> kwargs) url) as Hq'.
  { unfold with_query in *. rewrite delete_insert_eq. done. }
  pose proof (_request_run self "POST" (<["body" := PStr body]> kwargs) w o f s ct
                base url Ho Hf Hs Hct Hb Hq') as Hrun.
  cbv zeta in Hrun. rewrite lookup_insert_eq in Hrun. simpl in Hrun.
  fold rq in Hrun. rewrite Hans in Hrun. simpl in Hrun.
  rewrite Hst in Hrun. simpl in Hrun.
  unfold Resource_post, _request_with_body.
  rewrite (bind_ok _ _ _ _ _ (deref_ok _ _ _ Ho)).
  rewrite (bind_ok _ _ _ _ _ (get_serializer_ok _ _ _ _ Hf Hs)).
  rewrite (bind_ok _ _ _ _ _ (lift_ok _ _ _ Hd)).
  rewrite bool_decide_eq_false_2 by (rewrite Hbody; by intros [? ?]).
  rewrite (bind_ok _ _ _ _ _ Hrun).
  rewrite Hst. simpl. rewrite Hloc.
  unfold bind, ret. by rewrite call_kw_url_override.
Qed.

End VerbFacts.

(** ** Runs on a scripted transport *)

(** The node of the examples is well formed. *)
Lemma api_node_wf (u : string) : wf_node (api_node u).
Proof. split; [by_decide | left; by_compute]. Qed.

(** A call with no argument and a call with an id and a format. *)
Lemma call_identity_or_new_node_witness :
  let w := api_world "http://h/api" in
  Resource_call 0 PNone PNone PNone w = (Ok 0, w)
  ∧ ∃ o', Resource_call 0 (PInt 42) (PStr "xml") PNone w
          = (Ok 1, mkWorld (heap w ++ [o']) (trace w))
          ∧ res_meta o' !! "base_url" = Some (PStr "http://h/api/42")
          ∧ res_meta o' !! "format" = Some (PStr "xml")
          ∧ res_meta o' !! "authentication" = Some PNone.
Proof.
  intros w.
  pose proof (call_identity_or_new_node 0 PNone PNone PNone w
                (api_node "http://h/api") eq_refl (api_node_wf _)) as [Hsame _].
  pose proof (call_identity_or_new_node 0 (PInt 42) (PStr "xml") PNone w
                (api_node "http://h/api") eq_refl (api_node_wf _)) as [_ Hnew].
  split; [apply Hsame; repeat split; reflexivity|].
  destruct (Hnew ltac:(intros [[=] _]) "http://h/api/42")
    as (o' & H1 & _ & _ & H2 & H3 & H4).
  { intros _. eexists. split; by_compute. }
  exists o'. split; [exact H1|]. split; [exact H2|]. split; [exact H3|].
  rewrite H4 by discriminate. by_compute.
Defined.

(** A [post] answered with 201 and a location: the run of the theorem on a
    scripted transport. *)
Lemma post_created_raises_TypeError_witness :
  let w := api_world "http://h/api" in
  let created := mkResponse 201 {[ "location" := "/items/42" ]} in
  Resource_post (transport := scripted [(created, "made")]) 0 "d" {[ "q" := PStr "x" ]} w
  = (Raise (TypeError "__call__() got an unexpected keyword argument 'url_override'"),
     mkWorld (heap w) [json_request "http://h/api?q=x" "POST" (PStr "encoded:d")]).
Proof.
  intros w created.
  apply (post_created_raises_TypeError (transport := scripted [(created, "made")])
            0 "d" {[ "q" := PStr "x" ]} w (api_node "http://h/api") (PStr "json")
            (tagging_serializer "json") "application/json" "encoded:d"
            (PStr "http://h/api") (PStr "http://h/api?q=x") created "made" "/items/42").
  all: try by_compute.
  vm_compute. eexists. split; reflexivity.
Defined.


(** Three [get] calls, answered with 200, 204 and 302. *)
Lemma get_after_dispatch_witness :
  let w := api_world "http://h/api" in
  (Resource_get (transport := scripted [(mkResponse 200 ∅, "x")]) 0 ∅ w).1
  = Ok (Decoded "decoded:x")
  ∧ (Resource_get (transport := scripted [(mkResponse 204 ∅, "x")]) 0 ∅ w).1
    = Ok (Content "x")
  ∧ (Resource_get (transport := scripted [(mkResponse 302 ∅, "x")]) 0 ∅ w).1
    = Ok Nothing.
Proof.
  intros w.
  set (w1 := mkWorld (heap w) [json_request "http://h/api" "GET" PNone]).
  assert (Hrq : ∀ st, st = 200%Z ∨ st = 204%Z ∨ st = 302%Z →
            _request (transport := scripted [(mkResponse st ∅, "x")]) 0 "GET" ∅ w
            = (Ok (mkResponse st ∅, "x"), w1)).
  { intros st [-> | [-> | ->]]; by_compute. }
  assert (Ho' : heap w !! 0 = Some (api_node "http://h/api")) by by_compute.
  assert (Hf' : res_meta (api_node "http://h/api") !! "format" = Some (PStr "json"))
    by by_compute.
  split; [|split].
  - destruct (get_after_dispatch (transport := scripted [(mkResponse 200 ∅, "x")])
                0 ∅ w w1 (mkResponse 200 ∅) "x" (Hrq 200%Z ltac:(auto)))
      as (o & f & s & Ho & Hf & Hs & Hget).
    rewrite Ho' in Ho. injection Ho as <-.
    rewrite Hf' in Hf. injection Hf as <-.
    change (Ok (tagging_serializer "json") = Ok s) in Hs. injection Hs as <-.
    rewrite Hget. reflexivity.
  - destruct (get_after_dispatch (transport := scripted [(mkResponse 204 ∅, "x")])
                0 ∅ w w1 (mkResponse 204 ∅) "x" (Hrq 204%Z ltac:(auto)))
      as (o & f & s & _ & _ & _ & Hget).
    rewrite Hget. reflexivity.
  - destruct (get_after_dispatch (transport := scripted [(mkResponse 302 ∅, "x")])
                0 ∅ w w1 (mkResponse 302 ∅) "x" (Hrq 302%Z ltac:(auto)))
      as (o & f & s & _ & _ & _ & Hget).
    rewrite Hget. reflexivity.
Defined.

(** A [put] answered with 204 and a [delete] answered with 302. *)
Lemma put_delete_after_dispatch_witness :
  let w := api_world "http://h/api" in
  Resource_put (transport := scripted [(mkResponse 204 ∅, "")]) 0 "d" ∅ w
  = (Ok true, mkWorld (heap w) [json_request "http://h/api" "PUT" (PStr "encoded:d")])
  ∧ Resource_delete (transport := scripted [(mkResponse 302 ∅, "")]) 0 ∅ w
    = (Ok false, mkWorld (heap w) [json_request "http://h/api" "DELETE" PNone]).
Proof.
  intros w.
  assert (Ho : heap w !! 0 = Some (api_node "http://h/api")) by by_compute.
  assert (Hf : res_meta (api_node "http://h/api") !! "format" = Some (PStr "json"))
    by by_compute.
  assert (Hbody : (∅ : Meta) !! "body" = None) by by_compute.
  split.
  - set (w1 := mkWorld (heap w) [json_request "http://h/api" "PUT" (PStr "encoded:d")]).
    assert (Hrq : _request (transport := scripted [(mkResponse 204 ∅, "")]) 0 "PUT"
                    (<["body" := PStr "encoded:d"]> ∅) w
                  = (Ok (mkResponse 204 ∅, ""), w1)) by by_compute.
    destruct (put_delete_after_dispatch (transport := scripted [(mkResponse 204 ∅, "")])
                0 w w1 (mkResponse 204 ∅) "") as [Hput _].
    destruct (Hput "d" ∅ (api_node "http://h/api") (PStr "json")
                (tagging_serializer "json") "encoded:d" Ho Hf eq_refl eq_refl Hbody Hrq)
      as [-> _].
    reflexivity.
  - set (w1 := mkWorld (heap w) [json_request "http://h/api" "DELETE" PNone]).
    assert (Hrq : _request (transport := scripted [(mkResponse 302 ∅, "")]) 0 "DELETE" ∅ w
                  = (Ok (mkResponse 302 ∅, ""), w1)) by by_compute.
    destruct (put_delete_after_dispatch (transport := scripted [(mkResponse 302 ∅, "")])
                0 w w1 (mkResponse 302 ∅) "") as [_ Hdel].
    destruct (Hdel ∅ Hrq) as [-> _].
    reflexivity.
Defined.

(** A [delete] given a [body] keyword sends it as the body of the request. *)
Lemma delete_sends_body_keyword :
  let w := api_world "http://h/api" in
  Resource_delete (transport := scripted [(mkResponse 204 ∅, "")]) 0
    {[ "body" := PStr "B" ]} w
  = (Ok true, mkWorld (heap w) [json_request "http://h/api" "DELETE" (PStr "B")]).
Proof. by_compute. Qed.

(** Three steps from a base URL with a trailing slash, a query and a
    fragment. *)
Lemma navigation_joins_segments_witness :
  let w := api_world "http://h/api/?k=v#top" in
  let steps := [Attr "users"; Id (PInt 42); Attr "posts"] in
  ∃ a w' o',
    navigate 0 steps w = (Ok (Reached a), w') ∧ heap w' !! a = Some o'
    ∧ res_meta o' !! "base_url" = Some (PStr "http://h/api/users/42/posts?k=v#top")
    ∧ url_join (PStr "http://h/api/?k=v#top") (nav_segment <$> steps)
      = Ok "http://h/api/users/42/posts?k=v#top".
Proof.
  intros w steps.
  assert (Ho : heap w !! 0 = Some (api_node "http://h/api/?k=v#top")) by by_compute.
  assert (Hb : res_meta (api_node "http://h/api/?k=v#top") !! "base_url"
               = Some (PStr "http://h/api/?k=v#top")) by by_compute.
  assert (Hsplit : urlparse.urlsplit "http://h/api/?k=v#top"
                   = Some (urlparse.mkSplit "http" "h" "/api/" "k=v" "top")) by by_compute.
  assert (Hsteps : Forall step_ok steps) by steps_ok.
  assert (Hj : url_join (PStr "http://h/api/?k=v#top") (nav_segment <$> steps)
               = Ok "http://h/api/users/42/posts?k=v#top") by by_compute.
  destruct (navigation_joins_segments 0 w _ _ _ steps Ho (api_node_wf _) Hb Hsplit
              ltac:(discriminate) ltac:(discriminate) ltac:(discriminate) Hsteps)
    as (a & w' & o' & joined & r' & Hnav & Hheap & Hbase & Hjoin & _).
  rewrite Hj in Hjoin. injection Hjoin as <-.
  exists a, w', o'. repeat split; assumption.
Defined.

(** A segment with a question mark: the second step joins onto the path in
    front of it, while one [url_join] with both segments joins behind it. *)
Lemma navigation_splits_at_question_mark :
  let w := api_world "http://h/a" in
  ∃ w' o',
    navigate 0 [Id (PStr "b?c"); Attr "d"] w = (Ok (Reached 2), w') ∧ heap w' !! 2 = Some o'
    ∧ res_meta o' !! "base_url" = Some (PStr "http://h/a/b/d?c")
    ∧ url_join (PStr "http://h/a") [PStr "b?c"; PStr "d"] = Ok "http://h/a/b?c/d".
Proof.
  intros w. eexists _, _. split; [by_compute|]. split; [by_compute|]. split; by_compute.
Qed.

(** [API()] fails and [API(base_url=...)] with a URL succeeds. *)
Lemma API_init_requires_base_url_witness :
  (∃ msg w', API_init API_class PNone ∅ empty_world
             = (Raise (ImproperlyConfigured msg), w'))
  ∧ ∃ a, API_init API_class (PStr "http://h/api") ∅ empty_world = (Ok a, empty_world)
         ∧ api_meta a !! "base_url" = Some (PStr "http://h/api").
Proof.
  split.
  - apply (API_init_requires_base_url API_class PNone ∅ empty_world).
    split; [by_decide | by_compute].
  - destruct (API_init_requires_base_url API_class (PStr "http://h/api") ∅ empty_world)
      as [_ Hok].
    eexists. split.
    + apply (Hok ltac:(by_decide) (PStr "http://h/api") PNone (mkClient []));
        [by_compute | discriminate | by_compute | reflexivity].
    + by_compute.
Defined.

(** [API(base_url=...)] with the empty string succeeds. *)
Lemma API_init_accepts_empty_base_url :
  ∃ a, API_init API_class (PStr "") ∅ empty_world = (Ok a, empty_world)
       ∧ api_meta a !! "base_url" = Some (PStr "").
Proof. eexists. split; by_compute. Qed.



(* ------------------------------------------------------------------ *)
(** * Further properties *)

(** The constructor either fails and leaves the world as it was, or adds one
    well-formed node of the class at the next address. *)
Lemma Resource_init_cases (cls : pyclass) (args : list pyval) (kwargs : Meta)
    (w : world) (r : outcome nat) (w' : world) :
  Resource_init cls args kwargs w = (r, w') →
  (w' = w ∧ ∃ e, r = Raise e)
  ∨ ∃ o, r = Ok (length (heap w)) ∧ w' = mkWorld (heap w ++ [o]) (trace w)
         ∧ res_class o = cls ∧ wf_node o.
Proof.
  intros Hrun. destruct r as [a|e].
  - right. destruct (Resource_init_wf _ _ _ _ _ _ Hrun) as (o & -> & Hh & Ht & Hc & Hwf).
    exists o. split; [done|]. split; [|done].
    destruct w' as [h t]. simpl in *. by subst.
  - left. split; [|eauto]. revert Hrun.
    unfold Resource_init, MetaMixin_init.
    destruct (apply_kwargs _ kwargs) as [meta rest].
    unfold bind, object_init.
    case_bool_decide; [|by intros [= _ <-]]. unfold ret.
    unfold make_client, meta_attr, bind, ret, raise.
    destruct (meta !! "authentication") as [au|]; [|by intros [= _ <-]].
    case_bool_decide; [|intros [=]].
    unfold add_credentials, ret, raise. destruct au; try (by intros [= _ <-]); intros [=].
Qed.

Lemma wf_node_union (o : ResourceObj) :
  wf_node o → res_meta o ∪ merge_metas (metas_of (res_class o)) = res_meta o.
Proof.
  intros [Hdom _]. apply map_eq. intros k. rewrite lookup_union.
  destruct (res_meta o !! k) as [v|] eqn:Hk;
    [by destruct (merge_metas (metas_of (res_class o)) !! k)|].
  apply not_elem_of_dom in Hk. rewrite Hdom in Hk.
  apply not_elem_of_dom in Hk. by rewrite Hk.
Qed.

(** X1: [__copy__] on a node the constructors made returns a node at a fresh
    address, of the same class and with exactly the same settings, whose
    client is configured from the same credentials; no request is sent and
    the nodes already there stay as they are. *)
Theorem copy_makes_fresh_equal_node (self : nat) (w : world) (o : ResourceObj) :
  heap w !! self = Some o → wf_node o →
  ∃ a client,
    res_meta o !! "authentication" = Some a ∧ client_of a = Ok client
    ∧ Resource_copy self w
      = (Ok (length (heap w)),
         mkWorld (heap w ++ [mkResource (res_class o) (res_meta o) client]) (trace w))
    ∧ self ≠ length (heap w).
Proof.
  intros Ho Hwf.
  assert (∃ a client, res_meta o !! "authentication" = Some a ∧ client_of a = Ok client)
    as (a & client & Ha & Hc).
  { destruct Hwf as [_ [->|[fields ->]]]; eauto. }
  exists a, client. repeat (split; [done|]). split.
  - unfold Resource_copy. rewrite (bind_ok _ _ _ _ _ (deref_ok _ _ _ Ho)).
    rewrite (Resource_init_run (res_class o) (res_meta o) w a client).
    + by rewrite (wf_node_union o Hwf).
    + destruct Hwf as [-> _]. done.
    + by rewrite (wf_node_union o Hwf).
    + done.
  - apply lookup_lt_Some in Ho. lia.
Qed.

Lemma Resource_defaults_dom :
  dom (merge_metas (metas_of Resource_class))
  = ({[ "authentication"; "base_url"; "format" ]} : gset string).
Proof. apply (bool_decide_unpack _). vm_compute. exact I. Qed.

Lemma child_settings (joined : string) (f a : pyval) :
  ({[ "base_url" := PStr joined; "format" := f; "authentication" := a ]} : Meta)
  ∪ merge_metas (metas_of Resource_class)
  = {[ "base_url" := PStr joined; "format" := f; "authentication" := a ]}.
Proof.
  apply map_eq. intros k. rewrite lookup_union.
  destruct (({[ "base_url" := PStr joined; "format" := f; "authentication" := a ]} : Meta) !! k)
    as [v|] eqn:Hk;
    [by destruct (merge_metas (metas_of Resource_class) !! k)|].
  apply not_elem_of_dom in Hk.
  rewrite !dom_insert_L, dom_singleton_L in Hk.
  assert (k ∉ dom (merge_metas (metas_of Resource_class))) as Hk'.
  { rewrite Resource_defaults_dom. set_solver. }
  apply not_elem_of_dom in Hk'. by rewrite Hk'.
Qed.

(** What [ResourceAttributesMixin.__getattr__] does on settings that have the
    three values it reads. *)
Lemma getattr_child (meta : Meta) (item : string) (w : world)
    (base f a : pyval) (joined : string) (client : HttpClient) :
  PyStr.startswith "_" item = false →
  meta !! "base_url" = Some base → url_join base [PStr item] = Ok joined →
  meta !! "format" = Some f → meta !! "authentication" = Some a →
  client_of a = Ok client →
  ResourceAttributesMixin_getattr meta item w
  = (Ok (length (heap w)),
     mkWorld (heap w ++ [mkResource Resource_class
                           {[ "base_url" := PStr joined; "format" := f;
                              "authentication" := a ]} client]) (trace w)).
Proof.
  intros Hitem Hb Hj Hf Ha Hc.
  unfold ResourceAttributesMixin_getattr. rewrite Hitem.
  unfold meta_attr. rewrite Hb, Hf, Ha. unfold bind, ret, lift. rewrite Hj.
  rewrite (Resource_init_run Resource_class _ w a client).
  - by rewrite child_settings.
  - rewrite Resource_defaults_dom, !dom_insert_L, dom_singleton_L. set_solver.
  - rewrite child_settings. by simplify_map_eq.
  - done.
Qed.

(** X2: attribute access on a node.  A name that normal lookup finds (a verb,
    [get_serializer], [Meta], [_meta], the client, an attribute of [object])
    gives that member: no node is built and nothing changes.  Any other name
    that begins with an underscore raises [AttributeError] with that name and
    changes nothing.  Every remaining name gives a new node at the next
    address that is always a plain [Resource], whatever the class of the
    node, and whose settings are exactly three: [base_url] joined with the
    name, and the [format] and [authentication] of the node; settings a
    subclass declares besides are not carried over. *)
Theorem getattr_child_is_plain_Resource (self : nat) (item : string) (w : world)
    (o : ResourceObj) :
  heap w !! self = Some o → wf_node o →
  (item ∈ Resource_attributes → Resource_getattr self item w = (Ok (Member item), w))
  ∧ (item ∉ Resource_attributes → PyStr.startswith "_" item = true →
     Resource_getattr self item w = (Raise (AttributeError item), w))
  ∧ (item ∉ Resource_attributes → PyStr.startswith "_" item = false →
     ∀ base joined,
       res_meta o !! "base_url" = Some base → url_join base [PStr item] = Ok joined →
       ∃ f a client,
         res_meta o !! "format" = Some f ∧ res_meta o !! "authentication" = Some a
         ∧ client_of a = Ok client
         ∧ Resource_getattr self item w
           = (Ok (Node (length (heap w))),
              mkWorld (heap w ++ [mkResource Resource_class
                                    {[ "base_url" := PStr joined; "format" := f;
                                       "authentication" := a ]} client]) (trace w))).
Proof.
  intros Ho Hwf. split; [|split].
  - intros Hmember. unfold Resource_getattr.
    rewrite (bind_ok _ _ _ _ _ (deref_ok _ _ _ Ho)).
    by rewrite bool_decide_eq_true_2.
  - intros Hmember Hitem. unfold Resource_getattr.
    rewrite (bind_ok _ _ _ _ _ (deref_ok _ _ _ Ho)).
    rewrite bool_decide_eq_false_2 by done.
    unfold ResourceAttributesMixin_getattr. by rewrite Hitem.
  - intros Hmember Hitem base joined Hb Hj.
    pose proof (wf_node_declares o "format" Hwf ltac:(set_solver)) as Hfmt.
    apply elem_of_dom in Hfmt as [f Hf].
    assert (∃ a client, res_meta o !! "authentication" = Some a ∧ client_of a = Ok client)
      as (a & client & Ha & Hc).
    { destruct Hwf as [_ [->|[fields ->]]]; eauto. }
    exists f, a, client. repeat (split; [done|]).
    unfold Resource_getattr. rewrite (bind_ok _ _ _ _ _ (deref_ok _ _ _ Ho)).
    rewrite bool_decide_eq_false_2 by done.
    by rewrite (bind_ok _ _ _ _ _ (getattr_child _ _ _ base _ _ _ _ Hitem Hb Hj Hf Ha Hc)).
Qed.

(** A single navigation step either leaves the world as it was or adds one
    well-formed node at the next address, which it returns. *)
Lemma navigate_step_cases (self : nat) (st : nav_step) (w : world)
    (r : outcome attribute) (w' : world) :
  navigate_step self st w = (r, w') →
  w' = w
  ∨ ∃ o, r = Ok (Node (length (heap w))) ∧ w' = mkWorld (heap w ++ [o]) (trace w)
         ∧ wf_node o.
Proof.
  destruct st as [item|id]; simpl.
  - unfold Resource_getattr, deref, bind.
    destruct (heap w !! self) as [o|]; [|intros [= _ <-]; by left].
    case_bool_decide; [intros [= _ <-]; by left|].
    unfold ResourceAttributesMixin_getattr.
    destruct (PyStr.startswith "_" item); [intros [= _ <-]; by left|].
    unfold meta_attr, bind, ret, raise, lift.
    destruct (res_meta o !! "base_url") as [base|]; [|intros [= _ <-]; by left].
    destruct (url_join base [PStr item]) as [url|e]; [|intros [= _ <-]; by left].
    destruct (res_meta o !! "format") as [f|]; [|intros [= _ <-]; by left].
    destruct (res_meta o !! "authentication") as [a|]; [|intros [= _ <-]; by left].
    destruct (Resource_init _ _ _ w) as [r1 w1] eqn:Hinit.
    apply Resource_init_cases in Hinit as [[-> [e ->]]|(o' & -> & -> & _ & Hwf)].
    + intros [= _ <-]. by left.
    + intros [= <- <-]. right. eauto.
  - unfold bind. destruct (Resource_call self id PNone PNone w) as [r1 w1] eqn:Hcall.
    assert (w1 = w ∨ ∃ o, r1 = Ok (length (heap w))
                          ∧ w1 = mkWorld (heap w ++ [o]) (trace w) ∧ wf_node o) as Hc.
    { revert Hcall. unfold Resource_call.
      case_bool_decide; [intros [= _ <-]; by left|].
      unfold deref, bind.
      destruct (heap w !! self) as [o|]; [|intros [= _ <-]; by left].
      case_bool_decide.
      - unfold meta_attr, bind, ret, raise, lift.
        destruct (res_meta o !! "base_url") as [base|]; [|intros [= _ <-]; by left].
        destruct (url_join base [id]) as [url|e]; [|intros [= _ <-]; by left].
        intros [[-> _]|(o' & -> & -> & _ & Hwf)]%Resource_init_cases; [by left|right; eauto].
      - unfold ret.
        intros [[-> _]|(o' & -> & -> & _ & Hwf)]%Resource_init_cases; [by left|right; eauto]. }
    destruct Hc as [->|(o & -> & -> & Hwf)].
    + destruct r1; intros [= _ <-]; by left.
    + intros [= <- <-]. right. eauto.
Qed.

(** A step gives a member only when it is the access to a name that normal
    lookup finds. *)
Lemma navigate_step_member (self : nat) (st : nav_step) (w w' : world) (name : string) :
  navigate_step self st w = (Ok (Member name), w') →
  st = Attr name ∧ name ∈ Resource_attributes.
Proof.
  destruct st as [item|id]; simpl.
  - unfold Resource_getattr, deref, bind.
    destruct (heap w !! self) as [o|]; [|intros [=]].
    case_bool_decide; [by intros [= -> _]|].
    by destruct (ResourceAttributesMixin_getattr _ _ _) as [[a|e] w1].
  - unfold bind. by destruct (Resource_call _ _ _ _ _) as [[a|e] w1].
Qed.

(** X3: a chain of attribute accesses and id calls sends nothing and touches
    no node for as long as it stays among nodes: whether it ends at a node,
    fails, or arrives at a member of a node (a verb, say), the requests sent
    are those sent before and the heap is the old heap followed by new nodes,
    at most one for each step, every one of them well formed.  When the chain
    arrives at a member, the name is one that normal lookup finds and the
    steps after it have not been run. *)
Theorem navigate_sends_nothing (steps : list nav_step) (self : nat) (w : world) :
  let run := navigate self steps w in
  trace run.2 = trace w
  ∧ (∃ new, heap run.2 = heap w ++ new ∧ Forall wf_node new
            ∧ (length new ≤ length steps)%nat)
  ∧ ∀ name rest,
      run.1 = Ok (LeftAt name rest) →
      name ∈ Resource_attributes ∧ ∃ before, steps = before ++ Attr name :: rest.
Proof.
  cbv zeta. revert self w. induction steps as [|st steps IH]; intros self w; simpl.
  - split; [done|]. split; [|done]. exists []. by rewrite app_nil_r.
  - unfold bind. destruct (navigate_step self st w) as [r w1] eqn:Hstep.
    pose proof Hstep as Hcases.
    apply navigate_step_cases in Hcases as [->|(o & -> & -> & Hwf)].
    + destruct r as [[a|name]|e]; simpl.
      * destruct (IH a w) as (Ht & (new & Hh & Hwf & Hlen) & Hleft).
        split; [done|]. split.
        -- exists new. split; [done|]. split; [done|]. lia.
        -- intros name rest Hr. destruct (Hleft name rest Hr) as [Hin [before ->]].
           split; [done|]. by exists (st :: before).
      * split; [done|]. split.
        -- exists []. rewrite app_nil_r. split; [done|]. split; [done|]. simpl. lia.
        -- intros name' rest [= <- <-].
           apply navigate_step_member in Hstep as [-> Hin].
           split; [done|]. by exists [].
      * split; [done|]. split; [|done].
        exists []. rewrite app_nil_r. split; [done|]. split; [done|]. simpl. lia.
    + destruct (IH (length (heap w)) (mkWorld (heap w ++ [o]) (trace w)))
        as (Ht & (new & Hh & Hwf' & Hlen) & Hleft).
      simpl in *. split; [done|]. split.
      * exists (o :: new). rewrite Hh, <- app_assoc. split; [done|].
        split; [by constructor|]. simpl. lia.
      * intros name rest Hr. destruct (Hleft name rest Hr) as [Hin [before ->]].
        split; [done|]. by exists (st :: before).
Qed.

(** X4: a constructor keyword that names no setting declared by the class or
    its ancestors (a name excluded from the merge included) makes both
    [Resource(...)] and [API(...)] fail with the [TypeError] of
    [object.__init__]; nothing is built. *)
Theorem constructors_reject_undeclared (cls : pyclass) (kwargs : Meta) (k : string)
    (base_url : pyval) (w : world) :
  is_Some (kwargs !! k) → merge_metas (metas_of cls) !! k = None →
  Resource_init cls [] kwargs w
  = (Raise (TypeError "object.__init__() takes no parameters"), w)
  ∧ API_init cls base_url kwargs w
    = (Raise (TypeError "object.__init__() takes no parameters"), w).
Proof.
  intros Hk Hnone.
  assert (Hkd : k ∉ dom (merge_metas (metas_of cls))) by by apply not_elem_of_dom.
  split.
  - unfold Resource_init, bind.
    rewrite MetaMixin_init_undeclared; [done|].
    intros Hsub. apply Hkd, Hsub. by apply elem_of_dom.
  - unfold API_init, bind.
    rewrite MetaMixin_init_undeclared; [done|].
    intros Hsub. apply Hkd, Hsub.
    case_bool_decide; [|by apply elem_of_dom].
    rewrite dom_insert_L. apply elem_of_union_r. by apply elem_of_dom.
Qed.

(** X5: [API(...)] with declared keywords and a resolved [base_url] followed
    by the access to one attribute.  A name that normal lookup finds on the
    root ([http_client], [Meta], [_meta], an attribute of [object]) gives
    that member and builds no node.  Any other name that does not begin with
    an underscore gives a plain [Resource] node whose [base_url] is the root
    URL joined with the name and whose [format] and [authentication] are
    those resolved for the root. *)
Theorem API_attribute_is_Resource_at_joined_url (cls : pyclass) (base_url : pyval)
    (kwargs : Meta) (item : string) (w : world) (b f a : pyval) (client : HttpClient) :
  let kw := if bool_decide (base_url ≠ PNone)
            then <["base_url" := base_url]> kwargs else kwargs in
  let meta := kw ∪ merge_metas (metas_of cls) in
  dom kw ⊆ dom (merge_metas (metas_of cls)) →
  meta !! "base_url" = Some b → b ≠ PNone →
  meta !! "format" = Some f →
  meta !! "authentication" = Some a → client_of a = Ok client →
  (item ∈ API_attributes →
   (root <- API_init cls base_url kwargs;; API_getattr root item) w
   = (Ok (Member item), w))
  ∧ (item ∉ API_attributes → PyStr.startswith "_" item = false →
     ∀ joined, url_join b [PStr item] = Ok joined →
     (root <- API_init cls base_url kwargs;; API_getattr root item) w
     = (Ok (Node (length (heap w))),
        mkWorld (heap w ++ [mkResource Resource_class
                              {[ "base_url" := PStr joined; "format" := f;
                                 "authentication" := a ]} client]) (trace w))).
Proof.
  intros kw meta Hsub Hb Hbn Hf Ha Hc.
  assert (Hinit : API_init cls base_url kwargs w = (Ok (mkAPI cls meta client), w)).
  { unfold API_init. fold kw.
    rewrite (bind_ok _ _ _ _ _ (MetaMixin_init_declared cls kw w Hsub)).
    fold meta. unfold meta_attr at 1. rewrite Hb.
    unfold bind at 1, ret at 1. rewrite bool_decide_eq_false_2 by done.
    unfold bind. rewrite (make_client_eq _ _ _ Ha), Hc. done. }
  rewrite (bind_ok _ _ _ _ _ Hinit). unfold API_getattr. split.
  - intros Hmember. by rewrite bool_decide_eq_true_2.
  - intros Hmember Hitem joined Hj. rewrite bool_decide_eq_false_2 by done. simpl.
    by rewrite (bind_ok _ _ _ _ _ (getattr_child _ _ _ b _ _ _ _ Hitem Hb Hj Hf Ha Hc)).
Qed.

Section MoreVerbFacts.
Context {data : Type} {transport : Collaborators data}.

(** X6: once the response of a [post] has passed the 4xx/5xx dispatch with a
    status other than 201, a status in 200..299 returns the content as it
    is, undecoded, and any other status returns [None]. *)
Theorem post_after_dispatch (self : nat) (d : data) (kwargs : Meta) (w w1 : world)
    (o : ResourceObj) (f : pyval) (s : SerializerObj data) (body : string)
    (resp : Response) (content : string) :
  heap w !! self = Some o → res_meta o !! "format" = Some f →
  Serializer f = Ok s → dumps s d = Ok body → kwargs !! "body" = None →
  _request self "POST" (<["body" := PStr body]> kwargs) w = (Ok (resp, content), w1) →
  status resp ≠ 201%Z →
  Resource_post self d kwargs w
  = (if bool_decide (200 ≤ status resp ≤ 299)%Z then Ok (Content content) else Ok Nothing,
     w1).
Proof.
  intros Ho Hf Hs Hd Hbody Hr Hst.
  unfold Resource_post, _request_with_body.
  rewrite (bind_ok _ _ _ _ _ (deref_ok _ _ _ Ho)).
  rewrite (bind_ok _ _ _ _ _ (get_serializer_ok _ _ _ _ Hf Hs)).
  rewrite (bind_ok _ _ _ _ _ (lift_ok _ _ _ Hd)).
  rewrite bool_decide_eq_false_2 by (rewrite Hbody; by intros [? ?]).
  rewrite (bind_ok _ _ _ _ _ Hr). unfold ret.
  by repeat case_bool_decide.
Qed.

(** X7: [post] and [put] given a keyword [body] besides the data raise a
    [TypeError] (two values for the parameter [body] of [_request]) and send
    no request. *)
Theorem post_put_reject_body_keyword (self : nat) (d : data) (kwargs : Meta) (w : world)
    (o : ResourceObj) (f : pyval) (s : SerializerObj data) (body : string) :
  heap w !! self = Some o → res_meta o !! "format" = Some f →
  Serializer f = Ok s → dumps s d = Ok body → is_Some (kwargs !! "body") →
  Resource_post self d kwargs w
  = (Raise (TypeError "_request() got multiple values for keyword argument 'body'"), w)
  ∧ Resource_put self d kwargs w
    = (Raise (TypeError "_request() got multiple values for keyword argument 'body'"), w).
Proof.
  intros Ho Hf Hs Hd Hbody.
  unfold Resource_post, Resource_put, _request_with_body.
  rewrite !(bind_ok _ _ _ _ _ (deref_ok _ _ _ Ho)).
  rewrite !(bind_ok _ _ _ _ _ (get_serializer_ok _ _ _ _ Hf Hs)).
  rewrite !(bind_ok _ _ _ _ _ (lift_ok _ _ _ Hd)).
  rewrite !bool_decide_eq_true_2 by done. done.
Qed.

(** X8: a verb call creates no node and sends at most one request; when it
    sends one, the method is that of the verb and the only header is
    [content-type], with the content type of the serializer of the node's
    format.  In particular no second request follows a [post]. *)
Theorem verbs_send_at_most_one_request (self : nat) (c : verb_call data) (w : world) :
  let w' := (call_verb self c w).2 in
  heap w' = heap w
  ∧ (trace w' = trace w
     ∨ ∃ o f s ct url body,
         heap w !! self = Some o ∧ res_meta o !! "format" = Some f
         ∧ Serializer f = Ok s ∧ get_content_type s = Ok ct
         ∧ trace w' = trace w ++ [mkRequest url (verb_method c) body
                                    [("content-type", ct)]]).
Proof.
  cbv zeta. destruct (call_verb self c w) as [r w'] eqn:Hrun. simpl.
  apply call_verb_cases in Hrun as [[-> _]|Hrun]; [by split; [|left]|].
  destruct Hrun as (o & f & s & kw & r1 & Ho & Hf & Hs & _ & Hreq & _).
  apply _request_cases in Hreq as [[-> _]|Hreq]; [by split; [|left]|].
  destruct Hreq as (o' & f' & s' & ct & base & url & Ho' & Hf' & Hs' & Hct & _ & _ & Hlet).
  cbv zeta in Hlet. destruct Hlet as [-> _]. simpl. split; [done|].
  right. exists o', f', s', ct, url, (default PNone (kw !! "body")).
  by repeat (split; [done|]).
Qed.

End MoreVerbFacts.

Lemma join_app (x : string) (l1 l2 : list string) :
  posixpath.join x (l1 ++ l2) = posixpath.join (posixpath.join x l1) l2.
Proof. unfold posixpath.join. apply fold_left_app. Qed.

(** X9: a last segment that begins with a slash replaces the whole path: the
    result of [url_join] then has that segment as path, whatever the path of
    the base and the segments before it, and keeps scheme, host, query and
    fragment. *)
Theorem url_join_absolute_segment (u : string) (r : SplitResult) (args : list pyval)
    (s : string) :
  urlsplit u = Some r →
  url_join (PStr u) (args ++ [PStr ("/" +:+ s)])
  = Ok (urlunsplit (mkSplit (scheme r) (netloc r) ("/" +:+ s) (query r) (fragment r))).
Proof.
  intros Hsplit. rewrite (url_join_split u r _ Hsplit).
  rewrite fmap_app, join_app. simpl.
  unfold posixpath.join at 1. simpl. unfold posixpath.join_step.
  change ("/" +:+ s) with (String "/" s).
  by rewrite startswith_slash_cons.
Qed.

(** X10: [url_join] composes: for a base with a scheme and a host and first
    segments free of question mark and hash, joining further segments onto
    the result of a first join equals one join with all segments.  With no
    further segments: the result of a join is a fixed point of [url_join]. *)
Theorem url_join_composes (u : string) (r : SplitResult) (args1 args2 : list pyval)
    (joined : string) :
  urlsplit u = Some r → scheme r ≠ "" → netloc r ≠ "" →
  Forall (λ a, no_qf (py_str a)) args1 →
  url_join (PStr u) args1 = Ok joined →
  url_join (PStr joined) args2 = url_join (PStr u) (args1 ++ args2).
Proof.
  intros Hsplit Hsc Hnl Hargs Hj.
  pose proof (urlsplit_wf u r Hsplit Hsc Hnl) as Hwf.
  rewrite (url_join_split u r _ Hsplit) in Hj. injection Hj as <-.
  rewrite (url_join_split u r _ Hsplit).
  destruct r as [sc nl p q f]. cbn [scheme netloc path query fragment] in *.
  set (p1 := posixpath.join p (py_str <$> args1)).
  assert (Hp1 : no_qf p1).
  { apply no_qf_join; [split; apply Hwf|]. by apply Forall_fmap. }
  rewrite (url_join_written sc nl p1 q f args2 (wf_split_path _ _ _ _ _ _ Hwf Hp1)).
  rewrite fmap_app, join_app. fold p1. f_equal.
  rewrite <- (urlunsplit_rooted sc nl (posixpath.join (rooted p1) _)) by done.
  rewrite join_rooted. by apply urlunsplit_rooted.
Qed.

Lemma endswith_app_char (x : string) (c : ascii) :
  PyStr.endswith c (x +:+ String c "") = true.
Proof.
  induction x as [|a x IH].
  - rewrite append_nil_l. simpl. apply Ascii.eqb_refl.
  - rewrite append_cons. destruct x as [|b x].
    + rewrite append_nil_l. simpl. apply Ascii.eqb_refl.
    + rewrite append_cons in *. exact IH.
Qed.

Lemma endswith_cons (a b : ascii) (x : string) (c : ascii) :
  PyStr.endswith c (String a (String b x)) = PyStr.endswith c (String b x).
Proof. done. Qed.

Lemma rooted_nonempty (p : string) :
  p ≠ "" → ∃ a x, rooted p = String a x ∧ PyStr.endswith "/" (rooted p) = PyStr.endswith "/" p
                  ∧ rooted (p +:+ "/") = rooted p +:+ "/".
Proof.
  intros Hp. destruct p as [|a p]; [done|]. clear Hp.
  rewrite append_cons, !rooted_cons.
  destruct (Ascii.eqb a "/") eqn:E.
  - exists a, p. done.
  - exists "/"%char, (String a p). split; [done|]. split; [done|].
    by rewrite !append_cons.
Qed.

(** X11: a trailing slash on the path of the base makes no difference to a
    join with at least one segment. *)
Theorem url_join_ignores_trailing_slash (sc nl p q f : string) (a : pyval)
    (args : list pyval) :
  wf_split (mkSplit sc nl p q f) → p ≠ "" → PyStr.endswith "/" p = false →
  url_join (PStr (urlunsplit (mkSplit sc nl (p +:+ "/") q f))) (a :: args)
  = url_join (PStr (urlunsplit (mkSplit sc nl p q f))) (a :: args).
Proof.
  intros Hwf Hp Hend.
  assert (Hwf' : wf_split (mkSplit sc nl (p +:+ "/") q f)).
  { apply (wf_split_path _ _ p _ _ _ Hwf). apply no_qf_app; [split; apply Hwf|done]. }
  rewrite (url_join_written _ _ _ _ _ _ Hwf), (url_join_written _ _ _ _ _ _ Hwf').
  do 3 f_equal. unfold posixpath.join. simpl. f_equal.
  destruct (rooted_nonempty p Hp) as (c & x & Hr & He & ->).
  unfold posixpath.join_step.
  destruct (PyStr.startswith "/" (py_str a)); [done|].
  rewrite endswith_app_char, orb_true_r, He, Hend, Hr. simpl.
  rewrite <- Hr. by rewrite append_assoc_s.
Qed.





Section NavigationAndVerbs.
Context {data : Type} {transport : Collaborators data}.


End NavigationAndVerbs.

(** X13: calls compose: [node(id)(format=f)] ends at a node with the class
    and the settings of [node(id, format=f)], one address further. *)
Theorem call_id_then_format (self : nat) (id format : pyval) (w : world)
    (o : ResourceObj) (base : pyval) (joined : string) :
  heap w !! self = Some o → wf_node o →
  id ≠ PNone → format ≠ PNone →
  res_meta o !! "base_url" = Some base → url_join base [id] = Ok joined →
  ∃ o1 o2 o3,
    Resource_call self id format PNone w
    = (Ok (length (heap w)), mkWorld (heap w ++ [o1]) (trace w))
    ∧ (n <- Resource_call self id PNone PNone;; Resource_call n PNone format PNone) w
      = (Ok (S (length (heap w))), mkWorld (heap w ++ [o2; o3]) (trace w))
    ∧ res_class o3 = res_class o1 ∧ res_meta o3 = res_meta o1.
Proof.
  intros Ho Hwf Hid Hfmt Hb Hj.
  destruct (Resource_call_run self id format PNone w o Ho Hwf) as [_ H1].
  destruct (H1 ltac:(by intros [? _]) joined ltac:(eauto))
    as (o1 & Hc1 & _ & Hcl1 & Hwf1 & Hb1 & Hf1 & Hk1).
  destruct (Resource_call_run self id PNone PNone w o Ho Hwf) as [_ H2].
  destruct (H2 ltac:(by intros [? _]) joined ltac:(eauto))
    as (o2 & Hc2 & _ & Hcl2 & Hwf2 & Hb2 & Hf2 & Hk2).
  set (w2 := mkWorld (heap w ++ [o2]) (trace w)) in *.
  assert (Ho2 : heap w2 !! length (heap w) = Some o2).
  { unfold w2. simpl. by rewrite lookup_app_r, Nat.sub_diag by lia. }
  destruct (Resource_call_run (length (heap w)) PNone format PNone w2 o2 Ho2 Hwf2) as [_ H3].
  destruct (H3 ltac:(by intros [_ [? _]]) "" ltac:(done))
    as (o3 & Hc3 & _ & Hcl3 & Hwf3 & Hb3 & Hf3 & Hk3).
  exists o1, o2, o3. split; [exact Hc1|]. split; [|split].
  - rewrite (bind_ok _ _ _ _ _ Hc2). rewrite Hc3. unfold w2. simpl.
    rewrite length_app, <- app_assoc. simpl. by rewrite Nat.add_1_r.
  - congruence.
  - apply map_eq. intros k.
    repeat case_decide; try done.
    destruct (decide (k = "base_url")) as [->|Hk]; [congruence|].
    destruct (decide (k = "format")) as [->|Hk']; [congruence|].
    rewrite Hk3, Hk2, Hk1; done.
Qed.

Section FailFast.
Context {data : Type} {transport : Collaborators data}.

(** X14: a verb fails before anything is sent when the format of the node
    has no serializer, and [post] and [put] do so as well when the
    serializer cannot encode the data: the error is the collaborator's and
    the world is unchanged. *)
Theorem verbs_fail_before_sending (self : nat) (w : world) (o : ResourceObj)
    (f : pyval) (e : exn) :
  heap w !! self = Some o → res_meta o !! "format" = Some f →
  (Serializer f = Raise e → ∀ c : verb_call data, call_verb self c w = (Raise e, w))
  ∧ (∀ s d kwargs,
       Serializer f = Ok s → dumps s d = Raise e →
       Resource_post self d kwargs w = (Raise e, w)
       ∧ Resource_put self d kwargs w = (Raise e, w)).
Proof.
  intros Ho Hf. split.
  - intros Hs c.
    assert (Hg : get_serializer o w = (Raise e, w)).
    { unfold get_serializer, meta_attr, bind, ret, lift. by rewrite Hf, Hs. }
    destruct c as [kwargs|d kwargs|d kwargs|kwargs]; simpl;
      unfold Resource_get, Resource_post, Resource_put, Resource_delete, _request;
      rewrite ?bind_assoc;
      rewrite ?(bind_ok _ _ _ _ _ (deref_ok _ _ _ Ho));
      rewrite ?bind_assoc;
      by rewrite (bind_raise _ _ _ _ _ Hg).
  - intros s d kwargs Hs Hd.
    unfold Resource_post, Resource_put.
    rewrite !(bind_ok _ _ _ _ _ (deref_ok _ _ _ Ho)).
    rewrite !(bind_ok _ _ _ _ _ (get_serializer_ok _ _ _ _ Hf Hs)).
    unfold lift, bind. by rewrite Hd.
Qed.

End FailFast.

(** ** Further runs *)

(** The subclass node of the examples is well formed. *)
Lemma tickets_node_wf (u : string) : wf_node (tickets_node u).
Proof. split; [by_decide | left; by_compute]. Qed.

(** A copy of a node of a subclass. *)
Lemma copy_makes_fresh_equal_node_witness :
  let w := mkWorld [tickets_node "http://h/api"] [] in
  Resource_copy 0 w
  = (Ok 1, mkWorld [tickets_node "http://h/api"; tickets_node "http://h/api"] []).
Proof.
  intros w.
  assert (Ho : heap w !! 0 = Some (tickets_node "http://h/api")) by by_compute.
  assert (Ha' : res_meta (tickets_node "http://h/api") !! "authentication" = Some PNone)
    by by_compute.
  destruct (copy_makes_fresh_equal_node 0 w _ Ho (tickets_node_wf _))
    as (a & client & Ha & Hc & Hrun & _).
  rewrite Ha' in Ha. injection Ha as <-. injection Hc as <-.
  exact Hrun.
Defined.

(** A verb, a private name and a segment as attributes of a node of a
    subclass. *)
Lemma getattr_child_is_plain_Resource_witness :
  let w := mkWorld [tickets_node "http://h/api"] [] in
  Resource_getattr 0 "get" w = (Ok (Member "get"), w)
  ∧ Resource_getattr 0 "_secret" w = (Raise (AttributeError "_secret"), w)
  ∧ Resource_getattr 0 "open" w
    = (Ok (Node 1),
       mkWorld [tickets_node "http://h/api";
                mkResource Resource_class
                  {[ "base_url" := PStr "http://h/api/open"; "format" := PStr "xml";
                     "authentication" := PNone ]} (mkClient [])] []).
Proof.
  intros w.
  assert (Ho : heap w !! 0 = Some (tickets_node "http://h/api")) by by_compute.
  assert (Hb : res_meta (tickets_node "http://h/api") !! "base_url"
               = Some (PStr "http://h/api")) by by_compute.
  assert (Hf' : res_meta (tickets_node "http://h/api") !! "format" = Some (PStr "xml"))
    by by_compute.
  assert (Ha' : res_meta (tickets_node "http://h/api") !! "authentication" = Some PNone)
    by by_compute.
  assert (Hj : url_join (PStr "http://h/api") [PStr "open"] = Ok "http://h/api/open")
    by by_compute.
  assert (Hget : "get" ∈ Resource_attributes) by by_decide.
  assert (Hsecret : "_secret" ∉ Resource_attributes) by by_decide.
  assert (Hopen : "open" ∉ Resource_attributes) by by_decide.
  destruct (getattr_child_is_plain_Resource 0 "get" w _ Ho (tickets_node_wf _))
    as (Hmember & _ & _).
  destruct (getattr_child_is_plain_Resource 0 "_secret" w _ Ho (tickets_node_wf _))
    as (_ & Hprivate & _).
  destruct (getattr_child_is_plain_Resource 0 "open" w _ Ho (tickets_node_wf _))
    as (_ & _ & Hpublic).
  split; [by apply Hmember|]. split; [by apply Hprivate|].
  destruct (Hpublic Hopen eq_refl _ _ Hb Hj) as (f & a & client & Hf & Ha & Hc & Hrun).
  rewrite Hf' in Hf. injection Hf as <-.
  rewrite Ha' in Ha. injection Ha as <-. injection Hc as <-.
  exact Hrun.
Defined.

(** Both constructors given a keyword [timeout]. *)
Lemma constructors_reject_undeclared_witness :
  Resource_init Resource_class [] {[ "timeout" := PInt 3 ]} empty_world
  = (Raise (TypeError "object.__init__() takes no parameters"), empty_world)
  ∧ API_init API_class (PStr "http://h/api") {[ "timeout" := PInt 3 ]} empty_world
    = (Raise (TypeError "object.__init__() takes no parameters"), empty_world).
Proof.
  assert (H1 : is_Some (({[ "timeout" := PInt 3 ]} : Meta) !! "timeout")).
  { eexists. by_compute. }
  assert (H2 : merge_metas (metas_of Resource_class) !! "timeout" = None) by by_compute.
  assert (H3 : merge_metas (metas_of API_class) !! "timeout" = None) by by_compute.
  split.
  - apply (constructors_reject_undeclared Resource_class _ "timeout" PNone _ H1 H2).
  - apply (constructors_reject_undeclared API_class _ "timeout" _ _ H1 H3).
Defined.

(** [API(base_url=...).http_client] and [API(base_url=...).users] *)
Lemma API_attribute_is_Resource_at_joined_url_witness :
  (root <- API_init API_class (PStr "http://h/api") ∅;; API_getattr root "http_client")
    empty_world
  = (Ok (Member "http_client"), empty_world)
  ∧ (root <- API_init API_class (PStr "http://h/api") ∅;; API_getattr root "users")
      empty_world
    = (Ok (Node 0),
       mkWorld [mkResource Resource_class
                  {[ "base_url" := PStr "http://h/api/users"; "format" := PStr "json";
                     "authentication" := PNone ]} (mkClient [])] []).
Proof.
  assert (Hclient : "http_client" ∈ API_attributes) by by_decide.
  assert (Husers : "users" ∉ API_attributes) by by_decide.
  assert (Hj : url_join (PStr "http://h/api") [PStr "users"] = Ok "http://h/api/users")
    by by_compute.
  split.
  - apply (API_attribute_is_Resource_at_joined_url API_class (PStr "http://h/api") ∅
             "http_client" empty_world (PStr "http://h/api") (PStr "json") PNone
             (mkClient []));
      [by_decide | by_compute | discriminate | by_compute | by_compute | reflexivity
      | exact Hclient].
  - apply (API_attribute_is_Resource_at_joined_url API_class (PStr "http://h/api") ∅
             "users" empty_world (PStr "http://h/api") (PStr "json") PNone
             (mkClient []));
      [by_decide | by_compute | discriminate | by_compute | by_compute | reflexivity
      | exact Husers | reflexivity | exact Hj].
Defined.

(** The same join onto a base with and without trailing slash. *)
Lemma url_join_ignores_trailing_slash_witness :
  url_join (PStr "http://h/api/?k=v") [PStr "users"; PInt 42]
  = url_join (PStr "http://h/api?k=v") [PStr "users"; PInt 42].
Proof.
  apply (url_join_ignores_trailing_slash "http" "h" "/api" "k=v" "").
  - constructor; try discriminate; by_compute.
  - discriminate.
  - reflexivity.
Defined.

(** A join that ends with an absolute segment. *)
Lemma url_join_absolute_segment_witness :
  url_join (PStr "http://h/api/v1?k=v") [PStr "users"; PStr "/root"]
  = Ok "http://h/root?k=v".
Proof.
  assert (Hsplit : urlsplit "http://h/api/v1?k=v"
                   = Some (mkSplit "http" "h" "/api/v1" "k=v" "")) by by_compute.
  exact (url_join_absolute_segment _ _ [PStr "users"] "root" Hsplit).
Defined.

(** A join in two calls and in one. *)
Lemma url_join_composes_witness :
  url_join (PStr "http://h/api/users") [PInt 42; PStr "posts"]
  = url_join (PStr "http://h/api/") [PStr "users"; PInt 42; PStr "posts"].
Proof.
  assert (Hsplit : urlsplit "http://h/api/" = Some (mkSplit "http" "h" "/api/" "" ""))
    by by_compute.
  apply (url_join_composes "http://h/api/" _ [PStr "users"] [PInt 42; PStr "posts"]
           "http://h/api/users" Hsplit).
  - discriminate.
  - discriminate.
  - repeat constructor; by_compute.
  - by_compute.
Defined.

(** An id and a format in one call and in two. *)
Lemma call_id_then_format_witness :
  let w := api_world "http://h/api" in
  ∃ o1 o2 o3,
    Resource_call 0 (PInt 42) (PStr "xml") PNone w = (Ok 1, mkWorld (heap w ++ [o1]) [])
    ∧ (n <- Resource_call 0 (PInt 42) PNone PNone;; Resource_call n PNone (PStr "xml") PNone) w
      = (Ok 2, mkWorld (heap w ++ [o2; o3]) [])
    ∧ res_class o3 = res_class o1 ∧ res_meta o3 = res_meta o1.
Proof.
  intros w.
  assert (Ho : heap w !! 0 = Some (api_node "http://h/api")) by by_compute.
  assert (Hb : res_meta (api_node "http://h/api") !! "base_url"
               = Some (PStr "http://h/api")) by by_compute.
  assert (Hj : url_join (PStr "http://h/api") [PInt 42] = Ok "http://h/api/42")
    by by_compute.
  exact (call_id_then_format 0 (PInt 42) (PStr "xml") w _ _ _ Ho (api_node_wf _)
           ltac:(discriminate) ltac:(discriminate) Hb Hj).
Defined.

(** A [post] answered with 200 and one answered with 302. *)
Lemma post_after_dispatch_witness :
  let w := api_world "http://h/api" in
  let sent := mkWorld (heap w) [json_request "http://h/api" "POST" (PStr "encoded:d")] in
  Resource_post (transport := scripted [(mkResponse 200 ∅, "done")]) 0 "d" ∅ w
  = (Ok (Content "done"), sent)
  ∧ Resource_post (transport := scripted [(mkResponse 302 ∅, "moved")]) 0 "d" ∅ w
    = (Ok Nothing, sent).
Proof.
  intros w sent.
  assert (Ho : heap w !! 0 = Some (api_node "http://h/api")) by by_compute.
  assert (Hf : res_meta (api_node "http://h/api") !! "format" = Some (PStr "json"))
    by by_compute.
  assert (Hbody : (∅ : Meta) !! "body" = None) by by_compute.
  assert (H200 : _request (transport := scripted [(mkResponse 200 ∅, "done")]) 0 "POST"
                   (<["body" := PStr "encoded:d"]> ∅) w
                 = (Ok (mkResponse 200 ∅, "done"), sent)) by by_compute.
  assert (H302 : _request (transport := scripted [(mkResponse 302 ∅, "moved")]) 0 "POST"
                   (<["body" := PStr "encoded:d"]> ∅) w
                 = (Ok (mkResponse 302 ∅, "moved"), sent)) by by_compute.
  split.
  - exact (post_after_dispatch (transport := scripted [(mkResponse 200 ∅, "done")])
             0 "d" ∅ w sent _ _ (tagging_serializer "json") "encoded:d" _ _
             Ho Hf eq_refl eq_refl Hbody H200 ltac:(discriminate)).
  - exact (post_after_dispatch (transport := scripted [(mkResponse 302 ∅, "moved")])
             0 "d" ∅ w sent _ _ (tagging_serializer "json") "encoded:d" _ _
             Ho Hf eq_refl eq_refl Hbody H302 ltac:(discriminate)).
Defined.

(** [post] and [put] with a [body] keyword. *)
Lemma post_put_reject_body_keyword_witness :
  let w := api_world "http://h/api" in
  Resource_post (transport := scripted []) 0 "d" {[ "body" := PStr "B" ]} w
  = (Raise (TypeError "_request() got multiple values for keyword argument 'body'"), w)
  ∧ Resource_put (transport := scripted []) 0 "d" {[ "body" := PStr "B" ]} w
    = (Raise (TypeError "_request() got multiple values for keyword argument 'body'"), w).
Proof.
  intros w.
  assert (Ho : heap w !! 0 = Some (api_node "http://h/api")) by by_compute.
  assert (Hf : res_meta (api_node "http://h/api") !! "format" = Some (PStr "json"))
    by by_compute.
  assert (Hbody : is_Some (({[ "body" := PStr "B" ]} : Meta) !! "body")).
  { eexists. by_compute. }
  exact (post_put_reject_body_keyword (transport := scripted []) 0 "d" _ w _ _
           (tagging_serializer "json") "encoded:d" Ho Hf eq_refl eq_refl Hbody).
Defined.


(** A [delete] and a [post] on a node whose format is [None]. *)
Lemma verbs_fail_before_sending_witness :
  let o := mkResource Resource_class
             (<["format" := PNone]> (res_meta (api_node "http://h/api"))) (mkClient []) in
  let w := mkWorld [o] [] in
  call_verb (transport := scripted []) 0 (CallDelete ∅) w
  = (Raise (CollaboratorError "no serializer"), w)
  ∧ call_verb (transport := scripted []) 0 (CallPost "d" ∅) w
    = (Raise (CollaboratorError "no serializer"), w).
Proof.
  intros o w.
  assert (Ho : heap w !! 0 = Some o) by reflexivity.
  assert (Hf : res_meta o !! "format" = Some PNone) by by_compute.
  destruct (verbs_fail_before_sending (transport := scripted []) 0 w o PNone
              (CollaboratorError "no serializer") Ho Hf) as [Hfail _].
  split; apply Hfail; reflexivity.
Defined.
